(** * pkg/diagnostics/tracing.go: the span-context codec and span linking

    A shallow embedding of [pkg/diagnostics/tracing.go] and of the parts of
    the Go standard library and of the tracing runtime it calls, followed
    by the properties of the codec, of the trace initiation policy and of
    the event annotation builder.

    Conventions of the embedding:
    - a Go [string] is a [string] (its characters are the bytes);
    - a Go [byte] is a [Byte.byte]; a [[]byte] and the fixed arrays
      [[8]byte], [[16]byte] are [list byte] (the arrays with their length
      stated where it matters);
    - [uint64] and [uint32] are [Z] with the wrap-around written out;
    - a Go pointer that may be [nil] is an [option];
    - a run-time panic is the [Panicked] branch of [outcome];
    - the tracing runtime is a recording store: the spans it started and
      the method calls it received, in order. *)

From Stdlib Require Import ZArith NArith List Bool Lia.
From Stdlib Require Import Strings.String Strings.Ascii Strings.Byte.
Import ListNotations.
Local Open Scope string_scope.
Local Open Scope list_scope.
Local Open Scope Z_scope.

(** ** Run-time panics *)

Inductive runtime_error : Type :=
| IndexOutOfRange (index : nat) (len : nat)
| NilPointerDereference.

Inductive outcome (A : Type) : Type :=
| Returned (a : A)
| Panicked (e : runtime_error).
Arguments Returned {A} a.
Arguments Panicked {A} e.

Definition obind {A B : Type} (m : outcome A) (k : A -> outcome B) : outcome B :=
  match m with
  | Returned a => k a
  | Panicked e => Panicked e
  end.

(** [l[i]]: a Go index expression on a slice. *)
Definition index_slice {A : Type} (l : list A) (i : nat) : outcome A :=
  match nth_error l i with
  | Some x => Returned x
  | None => Panicked (IndexOutOfRange i (List.length l))
  end.

(** [copy(dst, src)]: the first [min (len dst) (len src)] elements of [src]
    overwrite the start of [dst]; the result is the new content of [dst]. *)
Definition copy {A : Type} (dst src : list A) : list A :=
  firstn (List.length dst) src ++ skipn (List.length src) dst.

(** The conversions [uint32(x)] and the bound of [uint64]. *)
Definition uint32 (x : Z) : Z := x mod 2 ^ 32.
Definition maxUint64 : Z := 2 ^ 64 - 1.
Definition wrap64 (x : Z) : Z := x mod 2 ^ 64.

(** ** package strings *)
Module strings.

(** [strings.Split(s, sep)] for a one-byte separator: the fields between
    the occurrences of [sep]; a string without [sep] is its own only
    field, so the result is never empty. *)
Fixpoint Split (s : string) (sep : ascii) : list string :=
  match s with
  | EmptyString => [EmptyString]
  | String c rest =>
      if Ascii.eqb c sep then EmptyString :: Split rest sep
      else match Split rest sep with
           | field :: fields => String c field :: fields
           | [] => [String c EmptyString]
           end
  end.

(** [strings.Join(elems, sep)]. *)
Fixpoint Join (elems : list string) (sep : string) : string :=
  match elems with
  | [] => EmptyString
  | [e] => e
  | e :: rest => String.append e (String.append sep (Join rest sep))
  end.

End strings.

(** ** package encoding/hex *)
Module hex.

Inductive error : Type :=
| InvalidByteError (c : ascii)
| ErrLength.

Definition hextable : string := "0123456789abcdef".

(** [hextable[n]] for a nibble [n]. *)
Definition hexdigit (n : N) : ascii :=
  match String.get (N.to_nat n) hextable with
  | Some c => c
  | None => "0"%char
  end.

(** [EncodeToString]: two lower-case digits per byte, high nibble first. *)
Fixpoint EncodeToString (src : list byte) : string :=
  match src with
  | [] => EmptyString
  | v :: rest =>
      String (hexdigit (N.shiftr (Byte.to_N v) 4))
        (String (hexdigit (N.land (Byte.to_N v) 15)) (EncodeToString rest))
  end.

(** [fromHexChar]: the value of one hexadecimal digit, either case. *)
Definition fromHexChar (c : ascii) : option N :=
  let n := N_of_ascii c in
  if ((48 <=? n) && (n <=? 57))%N then Some (n - 48)%N
  else if ((97 <=? n) && (n <=? 102))%N then Some (n - 97 + 10)%N
  else if ((65 <=? n) && (n <=? 70))%N then Some (n - 65 + 10)%N
  else None.

(** [(a << 4) | b] as a byte. *)
Definition byte_of_nibbles (a b : N) : byte :=
  match Byte.of_N (N.lor (N.shiftl a 4) b mod 256) with
  | Some v => v
  | None => x00
  end.

(** [DecodeString] (Go 1.10 and later): the bytes of the digit pairs of
    [s]. The input is malformed when a pair holds a character that is no
    hexadecimal digit or when a single character is left at the end;
    then, as the package documents, "DecodeString returns the bytes
    decoded before the error". *)
Fixpoint DecodeString (s : string) : list byte * option error :=
  match s with
  | EmptyString => ([], None)
  | String p EmptyString =>
      match fromHexChar p with
      | None => ([], Some (InvalidByteError p))
      | Some _ => ([], Some ErrLength)
      end
  | String p (String q rest) =>
      match fromHexChar p with
      | None => ([], Some (InvalidByteError p))
      | Some a =>
          match fromHexChar q with
          | None => ([], Some (InvalidByteError q))
          | Some b =>
              let (decoded, err) := DecodeString rest in
              (byte_of_nibbles a b :: decoded, err)
          end
      end
  end.

End hex.

(** ** package strconv *)
Module strconv.

Inductive NumError : Type :=
| ErrSyntax
| ErrRange.

(** The value of a digit or letter, as [ParseUint] reads it. *)
Definition digit_value (c : ascii) : option Z :=
  let n := Z.of_N (N_of_ascii c) in
  if (48 <=? n) && (n <=? 57) then Some (n - 48)
  else if (97 <=? n) && (n <=? 122) then Some (n - 97 + 10)
  else if (65 <=? n) && (n <=? 90) then Some (n - 65 + 10)
  else None.

(** The loop of [ParseUint] over the bytes of [s], [n] the value read so
    far. A character that is no digit of the base is a syntax error with
    value 0; an overflow of [uint64] or of [maxVal] is a range error with
    value [maxVal]. *)
Fixpoint ParseUint_loop (base cutoff maxVal n : Z) (s : string)
  : Z * option NumError :=
  match s with
  | EmptyString => (n, None)
  | String c rest =>
      match digit_value c with
      | None => (0, Some ErrSyntax)
      | Some d =>
          if d >=? base then (0, Some ErrSyntax)
          else if n >=? cutoff then (maxVal, Some ErrRange)
          else
            let n' := wrap64 (n * base) in
            let n1 := wrap64 (n' + d) in
            if (n1 <? n') || (n1 >? maxVal) then (maxVal, Some ErrRange)
            else ParseUint_loop base cutoff maxVal n1 rest
      end
  end.

(** [ParseUint(s, base, bitSize)] for [2 <= base <= 36] and
    [1 <= bitSize <= 64], the forms this package calls. *)
Definition ParseUint (s : string) (base bitSize : Z) : Z * option NumError :=
  match s with
  | EmptyString => (0, Some ErrSyntax)
  | _ =>
      let cutoff := maxUint64 / base + 1 in
      let maxVal := 2 ^ bitSize - 1 in
      ParseUint_loop base cutoff maxVal 0 s
  end.

End strconv.

(** ** package fmt *)
Module fmt.

(** The digit loop of [fmtInteger] in base 10: digits are written from
    the least significant one, each in front of those already written.
    [fuel] bounds the number of digits; 20 are enough for a [uint64]. *)
Fixpoint fmtInteger_loop (fuel : nat) (u : Z) (buf : string) : string :=
  match fuel with
  | O => buf
  | S fuel' =>
      if u >=? 10 then
        let next := u / 10 in
        fmtInteger_loop fuel' next
          (String (ascii_of_N (Z.to_N (48 + u - next * 10))) buf)
      else String (ascii_of_N (Z.to_N (48 + u))) buf
  end.

(** The verb [%d] on an unsigned integer. *)
Definition verb_d (u : Z) : string := fmtInteger_loop 20 u EmptyString.

(** The verb [%02x] on the slice of a byte array: two lower-case digits
    per byte. The arrays formatted here hold 8 and 16 bytes, so the
    output is wider than the minimum width 2 and nothing is padded. *)
Definition verb_02x (b : list byte) : string := hex.EncodeToString b.

(** The interface [fmt.Stringer]. *)
Class Stringer (A : Type) : Type := String_ : A -> string.

(** The generic conversion of the verb [%v] for the values of a type. *)
Class Formatter (A : Type) : Type := Format_v : A -> string.

(** [Sprintf("%v", x)] for an [interface{}] value: the nil interface
    prints as [<nil>]. *)
Definition Sprintf_v {A : Type} `{Formatter A} (x : option A) : string :=
  match x with
  | None => "<nil>"
  | Some v => Format_v v
  end.

End fmt.

(** ** package context

    Of a [context.Context] the package uses [context.Background()] and the
    span the tracing runtime stored in it ([trace.NewContext],
    [trace.FromContext]). *)
Inductive context_Context : Type :=
| context_Background
| trace_NewContext (parent : context_Context) (span : option nat).

(** ** package go.opencensus.io/trace

    The tracing runtime is an external collaborator. Its types are
    embedded as declared; its state is embedded as a recording store. *)
Module trace.

(** [SpanContext]: [TraceID [16]byte], [SpanID [8]byte],
    [TraceOptions uint32], [Tracestate *tracestate.Tracestate]. *)
Record SpanContext : Type := {
  TraceID : list byte;
  SpanID : list byte;
  TraceOptions : Z;
  Tracestate : option (list (string * string))
}.

(** The zero value [SpanContext{}]. *)
Definition SpanContext_zero : SpanContext :=
  {| TraceID := repeat x00 16; SpanID := repeat x00 8;
     TraceOptions := 0; Tracestate := None |}.

(** [func (t TraceID) String() string] and [func (s SpanID) String() string]:
    both are [fmt.Sprintf("%02x", x[:])]. *)
Definition TraceID_String (t : list byte) : string := fmt.verb_02x t.
Definition SpanID_String (s : list byte) : string := fmt.verb_02x s.

Inductive AttributeValue : Type :=
| StringValue (s : string)
| BoolValue (b : bool)
| Int64Value (i : Z).

Record Attribute : Type := { key : string; value : AttributeValue }.

Definition StringAttribute (k v : string) : Attribute :=
  {| key := k; value := StringValue v |}.

Record Status : Type := { Code : Z; Message : string }.

(** How a span was started. *)
Inductive Parent : Type :=
| NoParent
| LocalParent (p : SpanContext)
| RemoteParent (p : SpanContext).

(** What the runtime keeps of a span it started. A [*trace.Span] is the
    index of the span in the store, or [None] for [nil]. *)
Record SpanData : Type := {
  Name : string;
  ParentOf : Parent;
  spanContext : SpanContext
}.

(** A method call on a span, with its receiver. *)
Inductive Call : Type :=
| Annotate_call (span : option nat) (attributes : list Attribute) (str : string)
| AddAttributes_call (span : option nat) (attributes : list Attribute)
| SetStatus_call (span : option nat) (status : Status).

(** The runtime's state: [newIdentity n p] is the identity its ID
    generator and sampler give the [n]-th span, started with parent [p];
    [spans] are the spans started so far; [calls] the method calls
    received so far, oldest first. *)
Record Tracer : Type := {
  newIdentity : nat -> Parent -> SpanContext;
  spans : list SpanData;
  calls : list Call
}.

(** Code that calls the runtime and may panic. *)
Definition M (A : Type) : Type := Tracer -> outcome (A * Tracer).

Definition ret {A : Type} (a : A) : M A := fun t => Returned (a, t).

Definition bind {A B : Type} (m : M A) (k : A -> M B) : M B :=
  fun t =>
    match m t with
    | Returned (a, t') => k a t'
    | Panicked e => Panicked e
    end.

Definition lift {A : Type} (o : outcome A) : M A :=
  fun t =>
    match o with
    | Returned a => Returned (a, t)
    | Panicked e => Panicked e
    end.

Definition panic {A : Type} (e : runtime_error) : M A := fun _ => Panicked e.

Definition FromContext (ctx : context_Context) : option nat :=
  match ctx with
  | context_Background => None
  | trace_NewContext _ span => span
  end.

Definition start (ctx : context_Context) (name : string) (p : Parent)
  : M (context_Context * option nat) :=
  fun t =>
    let n := List.length (spans t) in
    let d := {| Name := name; ParentOf := p; spanContext := newIdentity t n p |} in
    Returned ((trace_NewContext ctx (Some n), Some n),
              {| newIdentity := newIdentity t;
                 spans := spans t ++ [d];
                 calls := calls t |}).

(** [StartSpan(ctx, name)]: a child of the span of [ctx] when it holds
    one, a root span otherwise. *)
Definition StartSpan (ctx : context_Context) (name : string)
  : M (context_Context * option nat) :=
  fun t =>
    let p := match FromContext ctx with
             | Some i => match nth_error (spans t) i with
                         | Some d => LocalParent (spanContext d)
                         | None => NoParent
                         end
             | None => NoParent
             end in
    start ctx name p t.

(** [StartSpanWithRemoteParent(ctx, name, parent)]. *)
Definition StartSpanWithRemoteParent (ctx : context_Context) (name : string)
  (parent : SpanContext) : M (context_Context * option nat) :=
  start ctx name (RemoteParent parent).

Definition record (c : Call) : M unit :=
  fun t =>
    Returned (tt, {| newIdentity := newIdentity t;
                     spans := spans t;
                     calls := calls t ++ [c] |}).

(** [span.Annotate(attributes, str)]. *)
Definition Annotate (span : option nat) (attributes : list Attribute)
  (str : string) : M unit :=
  record (Annotate_call span attributes str).

(** [span.AddAttributes(attributes...)]. *)
Definition AddAttributes (span : option nat) (attributes : list Attribute)
  : M unit :=
  record (AddAttributes_call span attributes).

(** [span.SetStatus(status)]. *)
Definition SetStatus (span : option nat) (status : Status) : M unit :=
  record (SetStatus_call span status).

(** [span.SpanContext()]: the zero value on a nil span. *)
Definition SpanContext_of (span : option nat) : M SpanContext :=
  fun t =>
    match span with
    | None => Returned (SpanContext_zero, t)
    | Some i =>
        match nth_error (spans t) i with
        | Some d => Returned (spanContext d, t)
        | None => Returned (SpanContext_zero, t)
        end
    end.

End trace.

Declare Scope go_scope.
Delimit Scope go_scope with go.
Notation "x <- c ;; k" := (trace.bind c (fun x => k))
  (at level 61, c at next level, right associativity) : go_scope.
Notation "' pat <- c ;; k" := (trace.bind c (fun x => match x with pat => k end))
  (at level 61, pat pattern, c at next level, right associativity) : go_scope.
Notation "c ;; k" := (trace.bind c (fun _ => k))
  (at level 61, right associativity) : go_scope.
Notation "x <-- c ;; k" := (obind c (fun x => k))
  (at level 61, c at next level, right associativity) : go_scope.

(** ** package github.com/qiangxue/fasthttp-routing

    Of the routing context the package reads one request header:
    [c.Request.Header.Peek(name)], the empty string when the header is
    not set. *)
Record routing_Context : Type := { Request_Header_Peek : string -> string }.

(** ** package diagnostics *)

(** [CorrelationID] is an opencensus correlation id. *)
Definition CorrelationID : string := "correlation-id".

(** [SerializeSpanContext]:
    [fmt.Sprintf("%s;%s;%d", ctx.SpanID.String(), ctx.TraceID.String(), ctx.TraceOptions)]. *)
Definition SerializeSpanContext (ctx : trace.SpanContext) : string :=
  String.append (trace.SpanID_String (trace.SpanID ctx))
    (String ";"
       (String.append (trace.TraceID_String (trace.TraceID ctx))
          (String ";" (fmt.verb_d (trace.TraceOptions ctx))))).

(** [DeserializeSpanContext]: the three index expressions may panic; the
    errors of the three parsers are dropped. *)
Definition DeserializeSpanContext (ctx : string) : outcome trace.SpanContext :=
  (let parts := strings.Split ctx ";" in
   p0 <-- index_slice parts 0 ;;
   let '(spanID, _) := hex.DecodeString p0 in
   p1 <-- index_slice parts 1 ;;
   let '(traceID, _) := hex.DecodeString p1 in
   p2 <-- index_slice parts 2 ;;
   let '(traceOptions, _) := strconv.ParseUint p2 10 32 in
   let ret := trace.SpanContext_zero in
   Returned
     {| trace.TraceID := copy (trace.TraceID ret) traceID;
        trace.SpanID := copy (trace.SpanID ret) spanID;
        trace.TraceOptions := uint32 traceOptions;
        trace.Tracestate := trace.Tracestate ret |})%go.

(** [DeserializeSpanContextPointer]. *)
Definition DeserializeSpanContextPointer (ctx : string)
  : outcome (option trace.SpanContext) :=
  (if String.eqb ctx "" then Returned None
   else
     context <-- DeserializeSpanContext ctx ;;
     Returned (Some context))%go.

(** [TraceSpanFromCorrelationId]. *)
Definition TraceSpanFromCorrelationId
  (corID operation actionMethod targetID from verbMethod : string)
  : trace.M (context_Context * option nat) :=
  ('(ctx, span) <-
     (if negb (String.eqb corID "") then
        spanContext <- trace.lift (DeserializeSpanContext corID) ;;
        trace.StartSpanWithRemoteParent context_Background operation spanContext
      else trace.StartSpan context_Background operation) ;;
   let attrs := [ trace.StringAttribute "actionMethod" actionMethod;
                  trace.StringAttribute "targetID" targetID;
                  trace.StringAttribute "from" from;
                  trace.StringAttribute "verbMethod" verbMethod ] in
   trace.Annotate span attrs "actionCall" ;;
   trace.AddAttributes span attrs ;;
   trace.ret (ctx, span))%go.

(** [SetSpanStatus]. *)
Definition SetSpanStatus (span : option nat) (code : Z) (message : string)
  : trace.M unit :=
  match span with
  | Some _ => trace.SetStatus span {| trace.Code := code; trace.Message := message |}
  | None => trace.ret tt
  end.

Section Events.

(** [time.Time] with its [String] method, and the values an
    [interface{}] of an event holds with their [%v] form. *)
Context {time_Time : Type} {Time_Stringer : fmt.Stringer time_Time}.
Context {dyn : Type} {dyn_Formatter : fmt.Formatter dyn}.

(** [KeyValState] is a state key value state. *)
Record KeyValState : Type := {
  Key : string;
  Value : option dyn
}.

(** [Event] is an Actions event. *)
Record Event : Type := {
  EventName : string;
  To : list string;
  Concurrency : string;
  CreatedAt : time_Time;
  State : list KeyValState;
  Data : option dyn
}.

(** The body of the loop of [AddEventAnnotations] for one event. *)
Definition annotate_event (span : option nat) (includeEventBody : bool)
  (e : Event) : trace.M unit :=
  (let attrs := [ trace.StringAttribute "eventName" (EventName e);
                  trace.StringAttribute "createdAt" (fmt.String_ (CreatedAt e));
                  trace.StringAttribute "concurrency" (Concurrency e);
                  trace.StringAttribute "to" (strings.Join (To e) ",") ] in
   trace.Annotate span attrs "message" ;;
   let attrs := if includeEventBody
                then attrs ++ [trace.StringAttribute "data" (fmt.Sprintf_v (Data e))]
                else attrs in
   trace.AddAttributes span attrs)%go.

Fixpoint range_events (span : option nat) (includeEventBody : bool)
  (es : list Event) : trace.M unit :=
  match es with
  | [] => trace.ret tt
  | e :: rest =>
      (annotate_event span includeEventBody e ;;
       range_events span includeEventBody rest)%go
  end.

(** [AddEventAnnotations]: [*events] panics on a nil pointer. *)
Definition AddEventAnnotations (events : option (list Event))
  (span : option nat) (includeEventBody : bool) : trace.M unit :=
  match events with
  | None => trace.panic NilPointerDereference
  | Some es => range_events span includeEventBody es
  end.

(** [TraceSpanFromContext]. *)
Definition TraceSpanFromContext (c : context_Context)
  (events : option (list Event)) (operation : string)
  (includeEvent includeEventBody : bool)
  : trace.M (context_Context * option nat * option trace.SpanContext) :=
  ('(ctx, span) <- trace.StartSpan c operation ;;
   (if includeEvent then AddEventAnnotations events span includeEventBody
    else trace.ret tt) ;;
   context <- trace.SpanContext_of span ;;
   trace.ret (ctx, span, Some context))%go.

(** [TraceSpanFromRoutingContext]. *)
Definition TraceSpanFromRoutingContext (c : option routing_Context)
  (events : option (list Event)) (operation : string)
  (includeEvent includeEventBody : bool)
  : trace.M (context_Context * option nat * option trace.SpanContext) :=
  ('(ctx, span) <-
     match c with
     | None => trace.StartSpan context_Background operation
     | Some rc =>
         let corID := Request_Header_Peek rc CorrelationID in
         if negb (String.eqb corID "") then
           spanContext <- trace.lift (DeserializeSpanContext corID) ;;
           trace.StartSpanWithRemoteParent context_Background operation spanContext
         else trace.StartSpan context_Background operation
     end ;;
   (if includeEvent then AddEventAnnotations events span includeEventBody
    else trace.ret tt) ;;
   match span with
   | Some _ =>
       context <- trace.SpanContext_of span ;;
       trace.ret (ctx, span, Some context)
   | None => trace.ret (ctx, span, None)
   end)%go.

End Events.

(** ** Vocabulary of the properties *)

(** A well-formed identity: full-width identifiers and 32-bit flags. *)
Definition full_width (x : trace.SpanContext) : Prop :=
  List.length (trace.SpanID x) = 8%nat /\
  List.length (trace.TraceID x) = 16%nat /\
  0 <= trace.TraceOptions x <= 2 ^ 32 - 1.

(** [s] holds no [c]. *)
Fixpoint free_of (c : ascii) (s : string) : bool :=
  match s with
  | EmptyString => true
  | String a rest => negb (Ascii.eqb a c) && free_of c rest
  end.

(** A syntactically valid base-10 number: one decimal digit or more. *)
Definition is_digit (c : ascii) : bool :=
  let n := Z.of_N (N_of_ascii c) in (48 <=? n) && (n <=? 57).

Fixpoint all_digits (s : string) : bool :=
  match s with
  | EmptyString => true
  | String c rest => is_digit c && all_digits rest
  end.

Definition is_decimal (s : string) : bool :=
  match s with
  | EmptyString => false
  | _ => all_digits s
  end.

(** The number a digit string denotes, read after the value [n]. *)
Fixpoint decimal_from (n : Z) (s : string) : Z :=
  match s with
  | EmptyString => n
  | String c rest => decimal_from (n * 10 + (Z.of_N (N_of_ascii c) - 48)) rest
  end.

Definition decimal_value (s : string) : Z := decimal_from 0 s.

(** The two bounds of [ParseUint(s, 10, 32)]. *)
Definition cutoff10 : Z := maxUint64 / 10 + 1.
Definition maxUint32 : Z := 2 ^ 32 - 1.

(** The attributes a call hands to the runtime, and whether a list of
    attributes holds one of key [k]. *)
Definition call_attributes (c : trace.Call) : list trace.Attribute :=
  match c with
  | trace.Annotate_call _ attrs _ => attrs
  | trace.AddAttributes_call _ attrs => attrs
  | trace.SetStatus_call _ _ => []
  end.

Definition has_key (k : string) (attrs : list trace.Attribute) : bool :=
  existsb (fun a => String.eqb (trace.key a) k) attrs.

(** The four attributes of an action call. *)
Definition action_attributes (actionMethod targetID from verbMethod : string)
  : list trace.Attribute :=
  [ {| trace.key := "actionMethod"; trace.value := trace.StringValue actionMethod |};
    {| trace.key := "targetID"; trace.value := trace.StringValue targetID |};
    {| trace.key := "from"; trace.value := trace.StringValue from |};
    {| trace.key := "verbMethod"; trace.value := trace.StringValue verbMethod |} ].

(** The runtime after a span was started with parent [p] and received
    the annotation and the attributes of an action call. *)
Definition after_action_call (t : trace.Tracer) (operation : string)
  (p : trace.Parent) (attrs : list trace.Attribute) : trace.Tracer :=
  let n := List.length (trace.spans t) in
  {| trace.newIdentity := trace.newIdentity t;
     trace.spans :=
       trace.spans t ++
       [{| trace.Name := operation; trace.ParentOf := p;
           trace.spanContext := trace.newIdentity t n p |}];
     trace.calls :=
       trace.calls t ++
       [ trace.Annotate_call (Some n) attrs "actionCall";
         trace.AddAttributes_call (Some n) attrs ] |}.

(** The runtime after it received [new] more calls. *)
Definition received (t : trace.Tracer) (new : list trace.Call) : trace.Tracer :=
  {| trace.newIdentity := trace.newIdentity t;
     trace.spans := trace.spans t;
     trace.calls := trace.calls t ++ new |}.

Section EventVocabulary.

Context {time_Time : Type} {Time_Stringer : fmt.Stringer time_Time}.
Context {dyn : Type} {dyn_Formatter : fmt.Formatter dyn}.

(** The four attributes of an event, as the specification lists them:
    event name, creation time as a string, concurrency tag, recipients
    joined by commas. *)
Definition event_attributes (e : @Event time_Time dyn) : list trace.Attribute :=
  [ {| trace.key := "eventName"; trace.value := trace.StringValue (EventName e) |};
    {| trace.key := "createdAt";
       trace.value := trace.StringValue (fmt.String_ (CreatedAt e)) |};
    {| trace.key := "concurrency"; trace.value := trace.StringValue (Concurrency e) |};
    {| trace.key := "to";
       trace.value := trace.StringValue (String.concat "," (To e)) |} ].

(** The fifth attribute: the payload in its [%v] form. *)
Definition data_attribute (e : @Event time_Time dyn) : trace.Attribute :=
  {| trace.key := "data";
     trace.value := trace.StringValue
                      (match Data e with
                       | None => "<nil>"
                       | Some v => fmt.Format_v v
                       end) |}.

(** The calls the specification asks for one event: one annotation
    tagged [message], then one attribute-set call. *)
Definition event_calls (span : option nat) (includeEventBody : bool)
  (e : @Event time_Time dyn) : list trace.Call :=
  [ trace.Annotate_call span (event_attributes e) "message";
    trace.AddAttributes_call span
      (if includeEventBody then event_attributes e ++ [data_attribute e]
       else event_attributes e) ].

End EventVocabulary.

(** The number of occurrences of [c] in [s]. *)
Fixpoint count_sep (c : ascii) (s : string) : nat :=
  match s with
  | EmptyString => O
  | String a rest =>
      if Ascii.eqb a c then S (count_sep c rest) else count_sep c rest
  end.

(** A string with its letters [a]..[z] in upper case. *)
Definition upper_char (c : ascii) : ascii :=
  let n := N_of_ascii c in
  if ((97 <=? n) && (n <=? 122))%N then ascii_of_N (n - 32) else c.

Fixpoint upper_case (s : string) : string :=
  match s with
  | EmptyString => EmptyString
  | String c rest => String (upper_char c) (upper_case rest)
  end.

(** The runtime after it started a span named [operation] with parent
    [p]. *)
Definition started (t : trace.Tracer) (operation : string) (p : trace.Parent)
  : trace.Tracer :=
  {| trace.newIdentity := trace.newIdentity t;
     trace.spans :=
       trace.spans t ++
       [{| trace.Name := operation; trace.ParentOf := p;
           trace.spanContext :=
             trace.newIdentity t (List.length (trace.spans t)) p |}];
     trace.calls := trace.calls t |}.

(** The parent a span started in the context [c] gets: the span [c]
    holds, when the runtime knows it. *)
Definition local_parent (t : trace.Tracer) (c : context_Context) : trace.Parent :=
  match c with
  | trace_NewContext _ (Some i) =>
      match nth_error (trace.spans t) i with
      | Some d => trace.LocalParent (trace.spanContext d)
      | None => trace.NoParent
      end
  | _ => trace.NoParent
  end.

(** The parent a correlation token selects: none for the empty token,
    the decoded identity as remote parent otherwise. *)
Definition token_parent (corID : string) : outcome trace.Parent :=
  if String.eqb corID "" then Returned trace.NoParent
  else match DeserializeSpanContext corID with
       | Returned y => Returned (trace.RemoteParent y)
       | Panicked e => Panicked e
       end.

(** The correlation token of an inbound request: the header
    [correlation-id], or the empty string when there is no request. *)
Definition correlation_header (c : option routing_Context) : string :=
  match c with
  | None => EmptyString
  | Some rc => Request_Header_Peek rc CorrelationID
  end.

Section AnnotationView.

Context {time_Time dyn : Type}.

(** The events a call annotates: those of the list when [includeEvent]
    is set, none otherwise; [None] when the list is to be read and is
    nil. *)
Definition events_to_annotate (events : option (list (@Event time_Time dyn)))
  (includeEvent : bool) : option (list (@Event time_Time dyn)) :=
  if includeEvent then events else Some [].

(** What the annotation of an event may show without the body: its
    name, recipients, concurrency tag and creation time. *)
Definition annotation_view (e : @Event time_Time dyn)
  : string * list string * string * time_Time :=
  (EventName e, To e, Concurrency e, CreatedAt e).

End AnnotationView.

(** The pairs the parsers return, taken apart. *)
Ltac split_pairs :=
  repeat match goal with
         | |- context [hex.DecodeString ?s] =>
             destruct (hex.DecodeString s) as [? ?]
         | |- context [strconv.ParseUint ?s ?b ?w] =>
             destruct (strconv.ParseUint s b w) as [? ?]
         end.

(** * Properties *)

(** ** Strings and slices *)

Lemma append_assoc (a b c : string) :
  String.append (String.append a b) c = String.append a (String.append b c).
Proof. induction a as [|x a IH]; simpl; [reflexivity | now rewrite IH]. Qed.

Lemma Split_nonempty (s : string) (sep : ascii) : strings.Split s sep <> [].
Proof.
  destruct s as [|c s]; simpl; [discriminate|].
  destruct (Ascii.eqb c sep); [discriminate|].
  destruct (strings.Split s sep); discriminate.
Qed.

Lemma Split_free (s : string) (sep : ascii) :
  free_of sep s = true -> strings.Split s sep = [s].
Proof.
  induction s as [|c s IH]; simpl; [reflexivity|].
  intros H. apply andb_true_iff in H as [Hc Hs].
  apply negb_true_iff in Hc. rewrite Hc, (IH Hs). reflexivity.
Qed.

Lemma Split_field (f rest : string) (sep : ascii) :
  free_of sep f = true ->
  strings.Split (String.append f (String sep rest)) sep
  = f :: strings.Split rest sep.
Proof.
  induction f as [|c f IH]; simpl; intros H.
  - now rewrite Ascii.eqb_refl.
  - apply andb_true_iff in H as [Hc Hf]. apply negb_true_iff in Hc.
    rewrite Hc, (IH Hf). reflexivity.
Qed.

Lemma copy_same_length {A : Type} (dst src : list A) :
  List.length src = List.length dst -> copy dst src = src.
Proof.
  intros H. unfold copy. rewrite <- H, firstn_all.
  rewrite H, skipn_all. apply app_nil_r.
Qed.

Lemma copy_longer {A : Type} (dst src : list A) :
  (List.length dst <= List.length src)%nat ->
  copy dst src = firstn (List.length dst) src.
Proof.
  intros H. unfold copy. rewrite skipn_all2 by exact H. apply app_nil_r.
Qed.

Lemma copy_nil {A : Type} (dst : list A) : copy dst [] = dst.
Proof. unfold copy. now rewrite firstn_nil. Qed.

Lemma copy_length {A : Type} (dst src : list A) :
  List.length (copy dst src) = List.length dst.
Proof.
  unfold copy. rewrite length_app, length_firstn, length_skipn. lia.
Qed.

Lemma uint32_small (x : Z) : 0 <= x <= 2 ^ 32 - 1 -> uint32 x = x.
Proof. intros H. unfold uint32. apply Z.mod_small. lia. Qed.

Lemma string_pair_ind (P : string -> Prop) :
  P EmptyString ->
  (forall c, P (String c EmptyString)) ->
  (forall p q rest, P rest -> P (String p (String q rest))) ->
  forall s, P s.
Proof.
  intros H0 H1 H2 s.
  enough (P s /\ forall c, P (String c s)) by tauto.
  induction s as [|a s [IHs IHc]]; split; auto.
Qed.

(** ** encoding/hex *)

Lemma fromHexChar_high (v : byte) :
  hex.fromHexChar (hex.hexdigit (N.shiftr (Byte.to_N v) 4))
  = Some (N.shiftr (Byte.to_N v) 4).
Proof. destruct v; reflexivity. Qed.

Lemma fromHexChar_low (v : byte) :
  hex.fromHexChar (hex.hexdigit (N.land (Byte.to_N v) 15))
  = Some (N.land (Byte.to_N v) 15).
Proof. destruct v; reflexivity. Qed.

Lemma byte_of_nibbles_split (v : byte) :
  hex.byte_of_nibbles (N.shiftr (Byte.to_N v) 4) (N.land (Byte.to_N v) 15) = v.
Proof. destruct v; reflexivity. Qed.

Lemma hexdigit_not_separator (v : byte) :
  Ascii.eqb (hex.hexdigit (N.shiftr (Byte.to_N v) 4)) ";" = false /\
  Ascii.eqb (hex.hexdigit (N.land (Byte.to_N v) 15)) ";" = false.
Proof. destruct v; split; reflexivity. Qed.

(** Decoding undoes encoding, whatever follows the encoded bytes. *)
Lemma DecodeString_EncodeToString_app (bs : list byte) (tail : string) :
  hex.DecodeString (String.append (hex.EncodeToString bs) tail)
  = (bs ++ fst (hex.DecodeString tail), snd (hex.DecodeString tail)).
Proof.
  induction bs as [|v bs IH].
  - simpl. now destruct (hex.DecodeString tail).
  - cbn [hex.EncodeToString String.append app hex.DecodeString].
    rewrite fromHexChar_high, fromHexChar_low, IH, byte_of_nibbles_split.
    reflexivity.
Qed.

Lemma append_empty_r (s : string) : String.append s EmptyString = s.
Proof. induction s as [|c s IH]; simpl; [reflexivity | now rewrite IH]. Qed.

Lemma DecodeString_EncodeToString (bs : list byte) :
  hex.DecodeString (hex.EncodeToString bs) = (bs, None).
Proof.
  rewrite <- (append_empty_r (hex.EncodeToString bs)).
  rewrite DecodeString_EncodeToString_app. simpl. now rewrite app_nil_r.
Qed.

Lemma EncodeToString_free (bs : list byte) :
  free_of ";" (hex.EncodeToString bs) = true.
Proof.
  induction bs as [|v bs IH]; [reflexivity|].
  cbn [hex.EncodeToString free_of].
  destruct (hexdigit_not_separator v) as [-> ->]. exact IH.
Qed.

(** A successful decode consumed two characters per byte. *)
Lemma DecodeString_length (s : string) :
  forall bs, hex.DecodeString s = (bs, None) ->
             String.length s = (2 * List.length bs)%nat.
Proof.
  induction s as [| c | p q rest IH] using string_pair_ind; intros bs; simpl.
  - intros [= <-]. reflexivity.
  - destruct (hex.fromHexChar c); discriminate.
  - destruct (hex.fromHexChar p); [|discriminate].
    destruct (hex.fromHexChar q); [|discriminate].
    destruct (hex.DecodeString rest) as [decoded err] eqn:E.
    intros [= <- ->]. simpl. rewrite (IH decoded eq_refl). lia.
Qed.

(** ** strconv and fmt *)

Lemma cutoff10_value : cutoff10 = 1844674407370955162.
Proof. reflexivity. Qed.

Lemma maxUint32_value : maxUint32 = 4294967295.
Proof. reflexivity. Qed.

Lemma ParseUint_nonempty (c : ascii) (s : string) :
  strconv.ParseUint (String c s) 10 32
  = strconv.ParseUint_loop 10 cutoff10 maxUint32 0 (String c s).
Proof. reflexivity. Qed.

Lemma is_digit_value (c : ascii) :
  is_digit c = true ->
  strconv.digit_value c = Some (Z.of_N (N_of_ascii c) - 48) /\
  0 <= Z.of_N (N_of_ascii c) - 48 < 10.
Proof.
  unfold is_digit, strconv.digit_value. intros H. rewrite H. split; [reflexivity|].
  apply andb_true_iff in H as [H1 H2]. lia.
Qed.

(** One turn of the loop on a digit that does not overflow. *)
Lemma ParseUint_loop_step (c : ascii) (d n : Z) (rest : string) :
  strconv.digit_value c = Some d -> 0 <= d < 10 ->
  0 <= n -> n * 10 + d <= maxUint32 ->
  strconv.ParseUint_loop 10 cutoff10 maxUint32 n (String c rest)
  = strconv.ParseUint_loop 10 cutoff10 maxUint32 (n * 10 + d) rest.
Proof.
  intros Hc Hd Hn Hmax. rewrite maxUint32_value in Hmax.
  cbn [strconv.ParseUint_loop]. rewrite Hc.
  destruct (d >=? 10) eqn:E1; [lia|].
  rewrite cutoff10_value.
  destruct (n >=? 1844674407370955162) eqn:E2; [lia|].
  unfold wrap64.
  assert (H64 : 2 ^ 64 = 18446744073709551616) by reflexivity.
  rewrite (Z.mod_small (n * 10)) by lia.
  rewrite (Z.mod_small (n * 10 + d)) by lia.
  rewrite maxUint32_value.
  destruct (n * 10 + d <? n * 10) eqn:E3; [lia|].
  destruct (n * 10 + d >? 4294967295) eqn:E4; [lia|].
  reflexivity.
Qed.

(** One turn of the loop on a digit that overflows 32 bits. *)
Lemma ParseUint_loop_overflow (c : ascii) (d n : Z) (rest : string) :
  strconv.digit_value c = Some d -> 0 <= d < 10 ->
  0 <= n <= maxUint32 -> maxUint32 < n * 10 + d ->
  strconv.ParseUint_loop 10 cutoff10 maxUint32 n (String c rest)
  = (maxUint32, Some strconv.ErrRange).
Proof.
  intros Hc Hd Hn Hmax. rewrite maxUint32_value in Hmax, Hn.
  cbn [strconv.ParseUint_loop]. rewrite Hc.
  destruct (d >=? 10) eqn:E1; [lia|].
  rewrite cutoff10_value.
  destruct (n >=? 1844674407370955162) eqn:E2; [lia|].
  unfold wrap64.
  assert (H64 : 2 ^ 64 = 18446744073709551616) by reflexivity.
  rewrite (Z.mod_small (n * 10)) by lia.
  rewrite (Z.mod_small (n * 10 + d)) by lia.
  rewrite maxUint32_value.
  destruct (n * 10 + d <? n * 10) eqn:E3; [lia|].
  destruct (n * 10 + d >? 4294967295) eqn:E4; [reflexivity | lia].
Qed.

Lemma decimal_from_ge (s : string) :
  forall n, all_digits s = true -> 0 <= n -> n <= decimal_from n s.
Proof.
  induction s as [|c s IH]; intros n Hs Hn; simpl; [lia|].
  simpl in Hs. apply andb_true_iff in Hs as [Hc Hs].
  destruct (is_digit_value c Hc) as [_ Hd].
  specialize (IH (n * 10 + (Z.of_N (N_of_ascii c) - 48)) Hs). lia.
Qed.

(** On a digit string the loop returns the number it denotes, or the
    saturated maximum with a range error when that number is too large. *)
Lemma ParseUint_loop_digits (s : string) :
  forall n, all_digits s = true -> 0 <= n <= maxUint32 ->
  strconv.ParseUint_loop 10 cutoff10 maxUint32 n s
  = if decimal_from n s <=? maxUint32 then (decimal_from n s, None)
    else (maxUint32, Some strconv.ErrRange).
Proof.
  induction s as [|c s IH]; intros n Hs Hn.
  - simpl. destruct (n <=? maxUint32) eqn:E; [reflexivity | lia].
  - simpl in Hs. apply andb_true_iff in Hs as [Hc Hs].
    destruct (is_digit_value c Hc) as [Hv Hd].
    set (d := Z.of_N (N_of_ascii c) - 48) in *.
    cbn [decimal_from]. fold d.
    destruct (Z_le_gt_dec (n * 10 + d) maxUint32) as [Hle | Hgt].
    + rewrite (ParseUint_loop_step c d n s Hv Hd) by lia.
      apply IH; [exact Hs | lia].
    + rewrite (ParseUint_loop_overflow c d n s Hv Hd Hn) by lia.
      pose proof (decimal_from_ge s (n * 10 + d) Hs) as Hge.
      destruct (decimal_from (n * 10 + d) s <=? maxUint32) eqn:E; [lia | reflexivity].
Qed.

(** The value that comes with an error: 0 with a syntax error, the
    maximum with a range error. *)
Lemma ParseUint_loop_error (base cutoff maxVal : Z) (s : string) :
  forall n v e,
    strconv.ParseUint_loop base cutoff maxVal n s = (v, Some e) ->
    (e = strconv.ErrSyntax /\ v = 0) \/ (e = strconv.ErrRange /\ v = maxVal).
Proof.
  induction s as [|c s IH]; intros n v e; cbn [strconv.ParseUint_loop].
  - discriminate.
  - destruct (strconv.digit_value c) as [d|]; [|intros [= <- <-]; auto].
    destruct (d >=? base); [intros [= <- <-]; auto|].
    destruct (n >=? cutoff); [intros [= <- <-]; auto|].
    destruct (_ || _); [intros [= <- <-]; auto|].
    apply IH.
Qed.

Lemma ParseUint_error (s : string) (v : Z) (e : strconv.NumError) :
  strconv.ParseUint s 10 32 = (v, Some e) ->
  (e = strconv.ErrSyntax /\ v = 0) \/ (e = strconv.ErrRange /\ v = 2 ^ 32 - 1).
Proof.
  destruct s as [|c s].
  - intros [= <- <-]. auto.
  - rewrite ParseUint_nonempty. apply ParseUint_loop_error.
Qed.

(** Whatever the input, the value fits 32 bits. *)
Lemma ParseUint_loop_bound (base cutoff : Z) (s : string) :
  forall n, 0 <= n <= maxUint32 ->
  0 <= fst (strconv.ParseUint_loop base cutoff maxUint32 n s) <= maxUint32.
Proof.
  induction s as [|c s IH]; intros n Hn; cbn [strconv.ParseUint_loop].
  - exact Hn.
  - rewrite maxUint32_value in *.
    destruct (strconv.digit_value c) as [d|]; [|simpl; lia].
    destruct (d >=? base); [simpl; lia|].
    destruct (n >=? cutoff); [simpl; lia|].
    destruct (_ || _) eqn:E; [simpl; lia|].
    apply orb_false_iff in E as [_ E]. apply IH.
    unfold wrap64 in *.
    pose proof (Z.mod_pos_bound (n * base mod 2 ^ 64 + d) (2 ^ 64) eq_refl).
    lia.
Qed.

Lemma ParseUint_bound (s : string) :
  0 <= fst (strconv.ParseUint s 10 32) <= maxUint32.
Proof.
  destruct s as [|c s].
  - simpl. rewrite maxUint32_value. lia.
  - rewrite ParseUint_nonempty. apply ParseUint_loop_bound.
    rewrite maxUint32_value. lia.
Qed.

(** The character [fmtInteger] writes for the digit [d]. *)
Lemma digit_char (d : Z) :
  0 <= d < 10 ->
  strconv.digit_value (ascii_of_N (Z.to_N (48 + d))) = Some d /\
  Ascii.eqb (ascii_of_N (Z.to_N (48 + d))) ";" = false.
Proof.
  intros H.
  assert (C : d = 0 \/ d = 1 \/ d = 2 \/ d = 3 \/ d = 4 \/
              d = 5 \/ d = 6 \/ d = 7 \/ d = 8 \/ d = 9) by lia.
  repeat (destruct C as [-> | C]; [split; reflexivity|]).
  subst d. split; reflexivity.
Qed.

Lemma last_digit (u : Z) : 48 + u - u / 10 * 10 = 48 + u mod 10.
Proof. pose proof (Z.div_mod u 10). lia. Qed.

(** Parsing the digits [fmtInteger] wrote in front of [buf] continues
    on [buf] from the number formatted. *)
Lemma fmtInteger_loop_parse (fuel : nat) :
  forall u buf, 0 <= u <= maxUint32 -> u < 10 ^ Z.of_nat fuel ->
  strconv.ParseUint_loop 10 cutoff10 maxUint32 0 (fmt.fmtInteger_loop fuel u buf)
  = strconv.ParseUint_loop 10 cutoff10 maxUint32 u buf.
Proof.
  induction fuel as [|fuel IH]; intros u buf Hu Hlt.
  - simpl in Hlt. assert (u = 0) as -> by lia. reflexivity.
  - cbn [fmt.fmtInteger_loop]. destruct (u >=? 10) eqn:E.
    + rewrite last_digit.
      assert (Hm : 0 <= u mod 10 < 10) by (apply Z.mod_pos_bound; lia).
      assert (Hq : 0 <= u / 10 <= maxUint32).
      { split; [apply Z.div_pos; lia|].
        pose proof (Z.div_mod u 10). lia. }
      rewrite IH.
      * destruct (digit_char _ Hm) as [Hv _].
        rewrite (ParseUint_loop_step _ _ _ _ Hv Hm) by
          (pose proof (Z.div_mod u 10); lia).
        f_equal. pose proof (Z.div_mod u 10). lia.
      * exact Hq.
      * rewrite Nat2Z.inj_succ, Z.pow_succ_r in Hlt by lia.
        apply Z.div_lt_upper_bound; lia.
    + assert (Hd : 0 <= u < 10) by lia.
      destruct (digit_char _ Hd) as [Hv _].
      rewrite (ParseUint_loop_step _ _ _ _ Hv Hd) by lia.
      reflexivity.
Qed.

(** The fuel is enough: past the number of digits, more changes nothing;
    [verb_d] runs with 20, and a [uint64] is below [10 ^ 20]. *)
Lemma fmtInteger_fuel_enough (fuel : nat) :
  forall u buf, 0 <= u < 10 ^ Z.of_nat (S fuel) ->
  fmt.fmtInteger_loop (S (S fuel)) u buf = fmt.fmtInteger_loop (S fuel) u buf.
Proof.
  induction fuel as [|fuel IH]; intros u buf Hu.
  - cbn [fmt.fmtInteger_loop]. change (10 ^ Z.of_nat 1) with 10 in Hu.
    destruct (u >=? 10) eqn:E; [lia | reflexivity].
  - remember (S fuel) as k eqn:Hk.
    cbn [fmt.fmtInteger_loop]. destruct (u >=? 10) eqn:E; [|reflexivity].
    subst k. apply IH. split; [apply Z.div_pos; lia|].
    rewrite (Nat2Z.inj_succ (S fuel)), Z.pow_succ_r in Hu by lia.
    apply Z.div_lt_upper_bound; lia.
Qed.

Lemma uint64_below_fuel : maxUint64 < 10 ^ Z.of_nat 20.
Proof. reflexivity. Qed.

Lemma fmtInteger_loop_cons (fuel : nat) :
  forall u c buf, exists c' s',
    fmt.fmtInteger_loop fuel u (String c buf) = String c' s'.
Proof.
  induction fuel as [|fuel IH]; intros u c buf; cbn [fmt.fmtInteger_loop].
  - eauto.
  - destruct (u >=? 10); [apply IH | eauto].
Qed.

Lemma fmtInteger_loop_S_cons (fuel : nat) (u : Z) (buf : string) :
  exists c s, fmt.fmtInteger_loop (S fuel) u buf = String c s.
Proof.
  cbn [fmt.fmtInteger_loop].
  destruct (u >=? 10); [apply fmtInteger_loop_cons | eauto].
Qed.

Lemma verb_d_cons (u : Z) : exists c s, fmt.verb_d u = String c s.
Proof. apply fmtInteger_loop_S_cons. Qed.

Lemma fmtInteger_loop_free (fuel : nat) :
  forall u buf, 0 <= u -> free_of ";" buf = true ->
                free_of ";" (fmt.fmtInteger_loop fuel u buf) = true.
Proof.
  induction fuel as [|fuel IH]; intros u buf Hu Hb; cbn [fmt.fmtInteger_loop].
  - exact Hb.
  - destruct (u >=? 10) eqn:E.
    + apply IH; [apply Z.div_pos; lia|].
      rewrite last_digit. cbn [free_of].
      destruct (digit_char (u mod 10)) as [_ ->];
        [apply Z.mod_pos_bound; lia | exact Hb].
    + cbn [free_of]. destruct (digit_char u) as [_ ->]; [lia | exact Hb].
Qed.

(** [%d] and [ParseUint] are inverse on 32-bit values. *)
Lemma ParseUint_verb_d (u : Z) :
  0 <= u <= maxUint32 -> strconv.ParseUint (fmt.verb_d u) 10 32 = (u, None).
Proof.
  intros Hu. destruct (verb_d_cons u) as (c & s & E).
  rewrite E, ParseUint_nonempty, <- E. unfold fmt.verb_d.
  rewrite fmtInteger_loop_parse; [reflexivity | exact Hu |].
  rewrite maxUint32_value in Hu. change (10 ^ Z.of_nat 20) with 100000000000000000000. lia.
Qed.

Lemma verb_d_free (u : Z) : 0 <= u -> free_of ";" (fmt.verb_d u) = true.
Proof. intros Hu. now apply fmtInteger_loop_free. Qed.

(** ** The codec *)

(** The decode of a token of three fields or more, field by field. *)
Lemma Deserialize_fields (ctx f0 f1 f2 : string) (rest : list string) :
  strings.Split ctx ";" = f0 :: f1 :: f2 :: rest ->
  DeserializeSpanContext ctx
  = Returned
      {| trace.TraceID := copy (repeat x00 16) (fst (hex.DecodeString f1));
         trace.SpanID := copy (repeat x00 8) (fst (hex.DecodeString f0));
         trace.TraceOptions := fst (strconv.ParseUint f2 10 32);
         trace.Tracestate := None |}.
Proof.
  intros H. unfold DeserializeSpanContext. rewrite H.
  cbn [index_slice nth_error obind].
  pose proof (ParseUint_bound f2) as Hb.
  split_pairs. cbn [fst] in *. rewrite (uint32_small _ Hb). reflexivity.
Qed.

Lemma Split_Serialize (x : trace.SpanContext) :
  full_width x ->
  strings.Split (SerializeSpanContext x) ";"
  = [ hex.EncodeToString (trace.SpanID x);
      hex.EncodeToString (trace.TraceID x);
      fmt.verb_d (trace.TraceOptions x) ].
Proof.
  intros (Hs & Ht & Ho). unfold SerializeSpanContext.
  unfold trace.SpanID_String, trace.TraceID_String, fmt.verb_02x.
  rewrite Split_field by apply EncodeToString_free.
  rewrite Split_field by apply EncodeToString_free.
  rewrite Split_free by (apply verb_d_free; lia).
  reflexivity.
Qed.

(** Decoding the encoding of a full-width identity. *)
Lemma Deserialize_Serialize (x : trace.SpanContext) :
  full_width x ->
  DeserializeSpanContext (SerializeSpanContext x)
  = Returned
      {| trace.TraceID := trace.TraceID x;
         trace.SpanID := trace.SpanID x;
         trace.TraceOptions := trace.TraceOptions x;
         trace.Tracestate := None |}.
Proof.
  intros Hx. rewrite (Deserialize_fields _ _ _ _ _ (Split_Serialize x Hx)).
  destruct Hx as (Hs & Ht & Ho).
  rewrite !DecodeString_EncodeToString, ParseUint_verb_d by exact Ho.
  cbn [fst]. rewrite !copy_same_length by (rewrite repeat_length; assumption).
  reflexivity.
Qed.

(** C1. Round-trip law: for every span identity [x] whose span id has 8
    bytes, whose trace id has 16 bytes and whose flags lie in
    [0, 2^32-1], decoding the encoding of [x] returns an identity equal
    to [x] in its span id, trace id and trace options. *)
Theorem roundtrip_Deserialize_Serialize (x : trace.SpanContext) :
  List.length (trace.SpanID x) = 8%nat ->
  List.length (trace.TraceID x) = 16%nat ->
  0 <= trace.TraceOptions x <= 2 ^ 32 - 1 ->
  exists y,
    DeserializeSpanContext (SerializeSpanContext x) = Returned y /\
    trace.SpanID y = trace.SpanID x /\
    trace.TraceID y = trace.TraceID x /\
    trace.TraceOptions y = trace.TraceOptions x.
Proof.
  intros Hs Ht Ho. eexists. split.
  - apply Deserialize_Serialize. repeat split; try assumption; apply Ho.
  - repeat split.
Qed.

Lemma roundtrip_witness :
  exists y,
    DeserializeSpanContext
      (SerializeSpanContext
         {| trace.TraceID := [x00; x11; x22; x33; x44; x55; x66; x77;
                              x88; x99; xaa; xbb; xcc; xdd; xee; xff];
            trace.SpanID := [x01; x23; x45; x67; x89; xab; xcd; xef];
            trace.TraceOptions := 4294967295;
            trace.Tracestate := Some [("vendor", "value")] |}) = Returned y /\
    trace.SpanID y = [x01; x23; x45; x67; x89; xab; xcd; xef] /\
    trace.TraceID y = [x00; x11; x22; x33; x44; x55; x66; x77;
                       x88; x99; xaa; xbb; xcc; xdd; xee; xff] /\
    trace.TraceOptions y = 4294967295.
Proof.
  apply (roundtrip_Deserialize_Serialize
           {| trace.TraceID := [x00; x11; x22; x33; x44; x55; x66; x77;
                                x88; x99; xaa; xbb; xcc; xdd; xee; xff];
              trace.SpanID := [x01; x23; x45; x67; x89; xab; xcd; xef];
              trace.TraceOptions := 4294967295;
              trace.Tracestate := Some [("vendor", "value")] |});
    [reflexivity | reflexivity | simpl; lia].
Defined.

(** The wire form of the specification's example. *)
Example Serialize_example :
  SerializeSpanContext
    {| trace.TraceID := [x00; x11; x22; x33; x44; x55; x66; x77;
                         x88; x99; xaa; xbb; xcc; xdd; xee; xff];
       trace.SpanID := [x01; x23; x45; x67; x89; xab; xcd; xef];
       trace.TraceOptions := 1;
       trace.Tracestate := None |}
  = "0123456789abcdef;00112233445566778899aabbccddeeff;1".
Proof. reflexivity. Qed.

(** C2. For every token that splits on [;] into fewer than 3 fields,
    [DeserializeSpanContext] panics on an index out of range: with [n]
    fields ([n] is 1 or 2) the access [parts[n]] is the one that fails.
    No guard on the field count stands before it. *)
Theorem Deserialize_too_few_fields (ctx : string) :
  (List.length (strings.Split ctx ";") < 3)%nat ->
  DeserializeSpanContext ctx
  = Panicked (IndexOutOfRange (List.length (strings.Split ctx ";"))
                              (List.length (strings.Split ctx ";"))).
Proof.
  intros H. unfold DeserializeSpanContext.
  pose proof (Split_nonempty ctx ";") as Hne.
  destruct (strings.Split ctx ";") as [|p0 [|p1 [|p2 rest]]].
  - congruence.
  - cbn [index_slice nth_error obind List.length].
    split_pairs. reflexivity.
  - cbn [index_slice nth_error obind List.length].
    split_pairs. reflexivity.
  - simpl in H. lia.
Qed.

Lemma too_few_fields_witness :
  (List.length (strings.Split "abc;def" ";") < 3)%nat /\
  DeserializeSpanContext "abc;def" = Panicked (IndexOutOfRange 2 2).
Proof.
  split; [vm_compute; lia|].
  apply (Deserialize_too_few_fields "abc;def"). vm_compute. lia.
Defined.

(** A string without separator is a single field: the access [parts[1]]
    panics, for the empty string too. *)
Lemma Deserialize_no_separator (ctx : string) :
  free_of ";" ctx = true ->
  DeserializeSpanContext ctx = Panicked (IndexOutOfRange 1 1).
Proof.
  intros H. unfold DeserializeSpanContext. rewrite (Split_free _ _ H).
  cbn [index_slice nth_error obind List.length]. split_pairs. reflexivity.
Qed.

(** C3 as stated fails: the token [01zz;;4294967296] has three fields;
    the hex decode of its first field fails on [zz] and the parse of its
    third field fails on a range error, and neither sub-field is left at
    its zero value: the span id keeps the byte [01] decoded before the
    error, and the flags are 2^32-1. *)
Lemma parse_error_counterexample :
  strings.Split "01zz;;4294967296" ";" = ["01zz"; ""; "4294967296"] /\
  hex.DecodeString "01zz" = ([x01], Some (hex.InvalidByteError "z")) /\
  strconv.ParseUint "4294967296" 10 32 = (4294967295, Some strconv.ErrRange) /\
  DeserializeSpanContext "01zz;;4294967296"
  = Returned
      {| trace.TraceID := repeat x00 16;
         trace.SpanID := [x01; x00; x00; x00; x00; x00; x00; x00];
         trace.TraceOptions := 4294967295;
         trace.Tracestate := None |} /\
  [x01; x00; x00; x00; x00; x00; x00; x00]
  <> trace.SpanID trace.SpanContext_zero /\
  4294967295 <> trace.TraceOptions trace.SpanContext_zero.
Proof. repeat split; try reflexivity; discriminate. Qed.

(** C3, amended. For every token with at least 3 fields,
    [DeserializeSpanContext] returns an identity: it neither panics nor
    reports an error. Each sub-field is computed from its own field
    alone. A hex-decode failure of field 0 or 1 is ignored: the
    identifier receives the bytes decoded before the failing digit pair
    (as many as fit) and is zero after them, so it is the zero value
    when the first pair already fails. An integer-parse failure of
    field 2 is ignored: the flags are 0 on a syntax error and 2^32-1 on
    a range error. *)
Theorem Deserialize_ignores_parse_errors
  (ctx f0 f1 f2 : string) (rest : list string) :
  strings.Split ctx ";" = f0 :: f1 :: f2 :: rest ->
  exists y,
    DeserializeSpanContext ctx = Returned y /\
    trace.SpanID y = copy (repeat x00 8) (fst (hex.DecodeString f0)) /\
    trace.TraceID y = copy (repeat x00 16) (fst (hex.DecodeString f1)) /\
    trace.TraceOptions y = fst (strconv.ParseUint f2 10 32) /\
    (forall bs bad,
        f0 = String.append (hex.EncodeToString bs) bad ->
        fst (hex.DecodeString bad) = [] ->
        trace.SpanID y = copy (repeat x00 8) bs) /\
    (forall bs bad,
        f1 = String.append (hex.EncodeToString bs) bad ->
        fst (hex.DecodeString bad) = [] ->
        trace.TraceID y = copy (repeat x00 16) bs) /\
    (fst (hex.DecodeString f0) = [] -> trace.SpanID y = repeat x00 8) /\
    (fst (hex.DecodeString f1) = [] -> trace.TraceID y = repeat x00 16) /\
    (forall e,
        snd (strconv.ParseUint f2 10 32) = Some e ->
        (e = strconv.ErrSyntax /\ trace.TraceOptions y = 0) \/
        (e = strconv.ErrRange /\ trace.TraceOptions y = 2 ^ 32 - 1)).
Proof.
  intros H. eexists. split; [apply (Deserialize_fields _ _ _ _ _ H)|].
  cbn [trace.SpanID trace.TraceID trace.TraceOptions].
  repeat split.
  - intros bs bad -> Hbad.
    rewrite DecodeString_EncodeToString_app. cbn [fst].
    now rewrite Hbad, List.app_nil_r.
  - intros bs bad -> Hbad.
    rewrite DecodeString_EncodeToString_app. cbn [fst].
    now rewrite Hbad, List.app_nil_r.
  - intros ->. apply copy_nil.
  - intros ->. apply copy_nil.
  - intros e He.
    destruct (strconv.ParseUint f2 10 32) as [v err] eqn:E. cbn [fst snd] in *.
    subst err. exact (ParseUint_error f2 v e E).
Qed.

Lemma ignores_parse_errors_witness :
  exists y,
    DeserializeSpanContext "0123zz;xy;-1;more" = Returned y /\
    trace.SpanID y = copy (repeat x00 8) (fst (hex.DecodeString "0123zz")) /\
    trace.TraceID y = copy (repeat x00 16) (fst (hex.DecodeString "xy")) /\
    trace.TraceOptions y = fst (strconv.ParseUint "-1" 10 32) /\
    (forall bs bad,
        "0123zz" = String.append (hex.EncodeToString bs) bad ->
        fst (hex.DecodeString bad) = [] ->
        trace.SpanID y = copy (repeat x00 8) bs) /\
    (forall bs bad,
        "xy" = String.append (hex.EncodeToString bs) bad ->
        fst (hex.DecodeString bad) = [] ->
        trace.TraceID y = copy (repeat x00 16) bs) /\
    (fst (hex.DecodeString "0123zz") = [] -> trace.SpanID y = repeat x00 8) /\
    (fst (hex.DecodeString "xy") = [] -> trace.TraceID y = repeat x00 16) /\
    (forall e,
        snd (strconv.ParseUint "-1" 10 32) = Some e ->
        (e = strconv.ErrSyntax /\ trace.TraceOptions y = 0) \/
        (e = strconv.ErrRange /\ trace.TraceOptions y = 2 ^ 32 - 1)).
Proof.
  apply (Deserialize_ignores_parse_errors
           "0123zz;xy;-1;more" "0123zz" "xy" "-1" ["more"]).
  reflexivity.
Defined.

(** The run of the amended C3 on a token whose three fields all fail. *)
Example Deserialize_all_fields_fail :
  DeserializeSpanContext "0123zz;xy;-1;more"
  = Returned
      {| trace.TraceID := repeat x00 16;
         trace.SpanID := [x01; x23; x00; x00; x00; x00; x00; x00];
         trace.TraceOptions := 0;
         trace.Tracestate := None |}.
Proof. reflexivity. Qed.

(** C8. For every 3-field token whose third field is a decimal number
    greater than 2^32-1, the flags of the decoded identity are the
    saturated maximum 2^32-1, and the span id and trace id are decoded
    from the first two fields as for any other third field: they are the
    ids of every token with the same first two fields, and the bytes a
    full-width field encodes. *)
Theorem Deserialize_flags_saturate (ctx f0 f1 f2 : string) :
  strings.Split ctx ";" = [f0; f1; f2] ->
  is_decimal f2 = true ->
  decimal_value f2 > 2 ^ 32 - 1 ->
  exists y,
    DeserializeSpanContext ctx = Returned y /\
    trace.TraceOptions y = 2 ^ 32 - 1 /\
    strconv.ParseUint f2 10 32 = (2 ^ 32 - 1, Some strconv.ErrRange) /\
    (forall ctx' f2' rest y',
        strings.Split ctx' ";" = f0 :: f1 :: f2' :: rest ->
        DeserializeSpanContext ctx' = Returned y' ->
        trace.SpanID y' = trace.SpanID y /\ trace.TraceID y' = trace.TraceID y) /\
    (forall sid, f0 = hex.EncodeToString sid -> List.length sid = 8%nat ->
                 trace.SpanID y = sid) /\
    (forall tid, f1 = hex.EncodeToString tid -> List.length tid = 16%nat ->
                 trace.TraceID y = tid).
Proof.
  intros H Hdec Hbig.
  assert (Hparse : strconv.ParseUint f2 10 32 = (2 ^ 32 - 1, Some strconv.ErrRange)).
  { destruct f2 as [|c s]; [discriminate|].
    rewrite ParseUint_nonempty, ParseUint_loop_digits.
    - unfold decimal_value in Hbig. fold maxUint32 in Hbig.
      destruct (decimal_from 0 (String c s) <=? maxUint32) eqn:E; [lia | reflexivity].
    - exact Hdec.
    - rewrite maxUint32_value. lia. }
  eexists. split; [apply (Deserialize_fields _ _ _ _ _ H)|].
  cbn [trace.SpanID trace.TraceID trace.TraceOptions].
  rewrite Hparse. split; [reflexivity|]. split; [reflexivity|].
  split; [|split].
  - intros ctx' f2' rest y' H' Hy'.
    rewrite (Deserialize_fields _ _ _ _ _ H') in Hy'.
    injection Hy' as <-. split; reflexivity.
  - intros sid -> Hlen. rewrite DecodeString_EncodeToString.
    apply copy_same_length. now rewrite repeat_length.
  - intros tid -> Hlen. rewrite DecodeString_EncodeToString.
    apply copy_same_length. now rewrite repeat_length.
Qed.

Lemma flags_saturate_witness :
  exists y,
    DeserializeSpanContext
      "0123456789abcdef;00112233445566778899aabbccddeeff;4294967296"
    = Returned y /\
    trace.TraceOptions y = 2 ^ 32 - 1 /\
    strconv.ParseUint "4294967296" 10 32 = (2 ^ 32 - 1, Some strconv.ErrRange) /\
    (forall ctx' f2' rest y',
        strings.Split ctx' ";"
        = "0123456789abcdef" :: "00112233445566778899aabbccddeeff" :: f2' :: rest ->
        DeserializeSpanContext ctx' = Returned y' ->
        trace.SpanID y' = trace.SpanID y /\ trace.TraceID y' = trace.TraceID y) /\
    (forall sid, "0123456789abcdef" = hex.EncodeToString sid ->
                 List.length sid = 8%nat -> trace.SpanID y = sid) /\
    (forall tid, "00112233445566778899aabbccddeeff" = hex.EncodeToString tid ->
                 List.length tid = 16%nat -> trace.TraceID y = tid).
Proof.
  apply (Deserialize_flags_saturate
           "0123456789abcdef;00112233445566778899aabbccddeeff;4294967296"
           "0123456789abcdef" "00112233445566778899aabbccddeeff" "4294967296");
    [reflexivity | reflexivity | vm_compute; reflexivity].
Defined.

(** C9 as stated fails on a token of fewer than 3 fields: the only field
    of [0123456789abcdefaa] is valid hex of 18 characters, and the decode
    panics on [parts[1]] before any byte is copied. *)
Lemma truncation_counterexample :
  strings.Split "0123456789abcdefaa" ";" = ["0123456789abcdefaa"] /\
  hex.DecodeString "0123456789abcdefaa"
  = ([x01; x23; x45; x67; x89; xab; xcd; xef; xaa], None) /\
  String.length "0123456789abcdefaa" = 18%nat /\
  DeserializeSpanContext "0123456789abcdefaa" = Panicked (IndexOutOfRange 1 1).
Proof. repeat split. Qed.

(** C9, amended. For every token of at least 3 fields whose first field
    is valid hex of more than 16 characters, the span id is the first 8
    decoded bytes and the bytes after them are dropped; likewise the
    trace id is the first 16 decoded bytes of a second field of more
    than 32 characters. So the decode is not injective: two distinct
    tokens of valid fields decode to one identity. *)
Theorem Deserialize_truncates_long_fields :
  (forall ctx f0 f1 f2 rest,
      strings.Split ctx ";" = f0 :: f1 :: f2 :: rest ->
      exists y,
        DeserializeSpanContext ctx = Returned y /\
        (forall bs, hex.DecodeString f0 = (bs, None) ->
                    (16 < String.length f0)%nat ->
                    trace.SpanID y = firstn 8 bs /\ skipn 8 bs <> []) /\
        (forall bs, hex.DecodeString f1 = (bs, None) ->
                    (32 < String.length f1)%nat ->
                    trace.TraceID y = firstn 16 bs /\ skipn 16 bs <> [])) /\
  (exists t1 t2 y,
      t1 <> t2 /\
      DeserializeSpanContext t1 = Returned y /\
      DeserializeSpanContext t2 = Returned y /\
      (forall f, In f (strings.Split t1 ";" ++ strings.Split t2 ";") ->
                 f <> EmptyString /\
                 (snd (hex.DecodeString f) = None \/ is_decimal f = true))).
Proof.
  split.
  - intros ctx f0 f1 f2 rest H.
    eexists. split; [apply (Deserialize_fields _ _ _ _ _ H)|].
    cbn [trace.SpanID trace.TraceID]. split.
    + intros bs E Hlen. rewrite E. cbn [fst].
      apply DecodeString_length in E.
      split.
      * rewrite copy_longer; rewrite repeat_length; [reflexivity | lia].
      * intros Hnil. apply (f_equal (@List.length byte)) in Hnil.
        rewrite length_skipn in Hnil. simpl in Hnil. lia.
    + intros bs E Hlen. rewrite E. cbn [fst].
      apply DecodeString_length in E.
      split.
      * rewrite copy_longer; rewrite repeat_length; [reflexivity | lia].
      * intros Hnil. apply (f_equal (@List.length byte)) in Hnil.
        rewrite length_skipn in Hnil. simpl in Hnil. lia.
  - exists "0123456789abcdef;00112233445566778899aabbccddeeff;1".
    exists "0123456789abcdefaa;00112233445566778899aabbccddeeffbb;1".
    eexists. split; [discriminate|]. split; [reflexivity|]. split; [reflexivity|].
    intros f Hf. simpl in Hf.
    repeat (destruct Hf as [<- | Hf];
            [split; [discriminate | (left; reflexivity) || (right; reflexivity)]|]).
    contradiction.
Qed.

Lemma truncates_long_fields_witness :
  exists y,
    DeserializeSpanContext
      "0123456789abcdefaa;00112233445566778899aabbccddeeffbb;1" = Returned y /\
    trace.SpanID y = [x01; x23; x45; x67; x89; xab; xcd; xef] /\
    trace.TraceID y = [x00; x11; x22; x33; x44; x55; x66; x77;
                       x88; x99; xaa; xbb; xcc; xdd; xee; xff].
Proof.
  destruct (proj1 Deserialize_truncates_long_fields
              "0123456789abcdefaa;00112233445566778899aabbccddeeffbb;1"
              "0123456789abcdefaa" "00112233445566778899aabbccddeeffbb" "1" []
              eq_refl) as (y & Hy & Hs & Ht).
  exists y. split; [exact Hy|]. split.
  - exact (proj1 (Hs _ eq_refl ltac:(vm_compute; lia))).
  - exact (proj1 (Ht _ eq_refl ltac:(vm_compute; lia))).
Defined.

(** ** The trace initiation policy *)

Lemma Join_concat (elems : list string) (sep : string) :
  strings.Join elems sep = String.concat sep elems.
Proof.
  induction elems as [|e rest IH]; [reflexivity|].
  destruct rest as [|e' rest]; [reflexivity|].
  cbn [strings.Join String.concat] in *. now rewrite IH.
Qed.

Lemma nth_error_snoc {A : Type} (l : list A) (x : A) :
  nth_error (l ++ [x]) (List.length l) = Some x.
Proof. rewrite nth_error_app2, Nat.sub_diag by lia. reflexivity. Qed.

Lemma Serialize_nonempty (x : trace.SpanContext) :
  String.eqb (SerializeSpanContext x) "" = false.
Proof.
  unfold SerializeSpanContext.
  destruct (trace.SpanID_String (trace.SpanID x)); reflexivity.
Qed.

(** A token that is not empty and decodes: the span is started with the
    decoded identity as its remote parent. *)
Lemma TraceSpanFromCorrelationId_remote
  (corID operation actionMethod targetID from verbMethod : string)
  (y : trace.SpanContext) (t : trace.Tracer) :
  String.eqb corID "" = false ->
  DeserializeSpanContext corID = Returned y ->
  TraceSpanFromCorrelationId corID operation actionMethod targetID from verbMethod t
  = Returned
      ((trace_NewContext context_Background (Some (List.length (trace.spans t))),
        Some (List.length (trace.spans t))),
       after_action_call t operation (trace.RemoteParent y)
         (action_attributes actionMethod targetID from verbMethod)).
Proof.
  intros Hne Hy. unfold TraceSpanFromCorrelationId, trace.bind, trace.lift.
  rewrite Hne, Hy. cbn. unfold after_action_call, action_attributes.
  rewrite <- app_assoc. reflexivity.
Qed.

(** The empty token: the span is started with no parent. *)
Lemma TraceSpanFromCorrelationId_root
  (operation actionMethod targetID from verbMethod : string) (t : trace.Tracer) :
  TraceSpanFromCorrelationId "" operation actionMethod targetID from verbMethod t
  = Returned
      ((trace_NewContext context_Background (Some (List.length (trace.spans t))),
        Some (List.length (trace.spans t))),
       after_action_call t operation trace.NoParent
         (action_attributes actionMethod targetID from verbMethod)).
Proof.
  unfold TraceSpanFromCorrelationId, trace.bind. cbn.
  unfold after_action_call, action_attributes.
  rewrite <- app_assoc. reflexivity.
Qed.

(** C4 as stated fails: on the token [abc], which is not empty and has a
    single field, [TraceSpanFromCorrelationId] returns no span at all: the
    decode panics before a span is started. *)
Lemma non_null_span_counterexample :
  String.eqb "abc" "" = false /\
  TraceSpanFromCorrelationId "abc" "op" "am" "tid" "from" "vm"
    {| trace.newIdentity := fun _ _ => trace.SpanContext_zero;
       trace.spans := []; trace.calls := [] |}
  = Panicked (IndexOutOfRange 1 1).
Proof. split; reflexivity. Qed.

(** C4, amended. For every token [T] that encodes a full-width identity
    [I], [TraceSpanFromCorrelationId(T, operation, ...)] starts the span
    as a remote-parented child of the decoded identity: the new span is
    in the runtime's store under the handle returned, with a remote
    parent whose trace id, span id and flags are those of [I]. And for
    every token that is empty or has at least 3 fields, the function
    returns a span that is not nil. *)
Theorem TraceSpanFromCorrelationId_parenting :
  (forall (I : trace.SpanContext)
          (operation actionMethod targetID from verbMethod : string)
          (t : trace.Tracer),
      full_width I ->
      exists ctx n t' d p,
        TraceSpanFromCorrelationId (SerializeSpanContext I)
          operation actionMethod targetID from verbMethod t
        = Returned ((ctx, Some n), t') /\
        nth_error (trace.spans t') n = Some d /\
        trace.Name d = operation /\
        trace.ParentOf d = trace.RemoteParent p /\
        trace.TraceID p = trace.TraceID I /\
        trace.SpanID p = trace.SpanID I /\
        trace.TraceOptions p = trace.TraceOptions I) /\
  (forall (corID operation actionMethod targetID from verbMethod : string)
          (t : trace.Tracer),
      corID = EmptyString \/ (3 <= List.length (strings.Split corID ";"))%nat ->
      exists ctx n t',
        TraceSpanFromCorrelationId corID
          operation actionMethod targetID from verbMethod t
        = Returned ((ctx, Some n), t')).
Proof.
  split.
  - intros I operation actionMethod targetID from verbMethod t HI.
    do 5 eexists. split.
    + apply TraceSpanFromCorrelationId_remote;
        [apply Serialize_nonempty | apply (Deserialize_Serialize I HI)].
    + split; [apply nth_error_snoc|]. repeat split.
  - intros corID operation actionMethod targetID from verbMethod t [-> | Hlen].
    + do 3 eexists. apply TraceSpanFromCorrelationId_root.
    + destruct (strings.Split corID ";") as [|f0 [|f1 [|f2 rest]]] eqn:E;
        simpl in Hlen; try lia.
      destruct (String.eqb corID "") eqn:Hne.
      * apply String.eqb_eq in Hne. subst corID. discriminate.
      * do 3 eexists.
        apply TraceSpanFromCorrelationId_remote;
          [exact Hne | apply (Deserialize_fields _ _ _ _ _ E)].
Qed.

Lemma parenting_witness :
  exists ctx n t' d p,
    TraceSpanFromCorrelationId
      "0123456789abcdef;00112233445566778899aabbccddeeff;1"
      "op" "am" "tid" "from" "vm"
      {| trace.newIdentity := fun _ _ => trace.SpanContext_zero;
         trace.spans := []; trace.calls := [] |}
    = Returned ((ctx, Some n), t') /\
    nth_error (trace.spans t') n = Some d /\
    trace.Name d = "op" /\
    trace.ParentOf d = trace.RemoteParent p /\
    trace.TraceID p = [x00; x11; x22; x33; x44; x55; x66; x77;
                       x88; x99; xaa; xbb; xcc; xdd; xee; xff] /\
    trace.SpanID p = [x01; x23; x45; x67; x89; xab; xcd; xef] /\
    trace.TraceOptions p = 1.
Proof.
  apply (proj1 TraceSpanFromCorrelationId_parenting
           {| trace.TraceID := [x00; x11; x22; x33; x44; x55; x66; x77;
                                x88; x99; xaa; xbb; xcc; xdd; xee; xff];
              trace.SpanID := [x01; x23; x45; x67; x89; xab; xcd; xef];
              trace.TraceOptions := 1;
              trace.Tracestate := None |}
           "op" "am" "tid" "from" "vm").
  repeat split; simpl; lia.
Defined.

(** C5. Absence is not a failure: [DeserializeSpanContextPointer("")]
    returns nil without parsing (a parse of the empty token would panic),
    and [TraceSpanFromCorrelationId("", ...)] returns a fresh span started
    with no parent, annotated with the attributes of the action call. *)
Theorem absence_is_not_failure :
  DeserializeSpanContextPointer "" = Returned None /\
  DeserializeSpanContext "" = Panicked (IndexOutOfRange 1 1) /\
  forall (operation actionMethod targetID from verbMethod : string)
         (t : trace.Tracer),
  exists n t' d,
    TraceSpanFromCorrelationId "" operation actionMethod targetID from verbMethod t
    = Returned ((trace_NewContext context_Background (Some n), Some n), t') /\
    n = List.length (trace.spans t) /\
    trace.spans t' = trace.spans t ++ [d] /\
    trace.Name d = operation /\
    trace.ParentOf d = trace.NoParent /\
    trace.calls t'
    = trace.calls t ++
      [ trace.Annotate_call (Some n)
          (action_attributes actionMethod targetID from verbMethod) "actionCall";
        trace.AddAttributes_call (Some n)
          (action_attributes actionMethod targetID from verbMethod) ].
Proof.
  split; [reflexivity|]. split; [reflexivity|].
  intros operation actionMethod targetID from verbMethod t.
  do 3 eexists. split; [apply TraceSpanFromCorrelationId_root|].
  repeat split.
Qed.

(** ** The event annotation builder *)

Section EventProperties.

Context {time_Time : Type} {Time_Stringer : fmt.Stringer time_Time}.
Context {dyn : Type} {dyn_Formatter : fmt.Formatter dyn}.

Lemma received_nil (t : trace.Tracer) : received t [] = t.
Proof. destruct t. unfold received. simpl. now rewrite List.app_nil_r. Qed.

Lemma received_app (t : trace.Tracer) (a b : list trace.Call) :
  received (received t a) b = received t (a ++ b).
Proof. unfold received. simpl. now rewrite app_assoc. Qed.

(** One turn of the loop makes the two calls of the event, in order. *)
Lemma annotate_event_calls (span : option nat) (includeEventBody : bool)
  (e : @Event time_Time dyn) (t : trace.Tracer) :
  annotate_event span includeEventBody e t
  = Returned (tt, received t (event_calls span includeEventBody e)).
Proof.
  unfold annotate_event, trace.bind, trace.Annotate, trace.AddAttributes,
    trace.record, received, event_calls, event_attributes, data_attribute,
    trace.StringAttribute, fmt.Sprintf_v.
  cbn [trace.newIdentity trace.spans trace.calls].
  rewrite Join_concat, <- app_assoc.
  destruct includeEventBody; reflexivity.
Qed.

Lemma range_events_calls (span : option nat) (includeEventBody : bool)
  (es : list (@Event time_Time dyn)) :
  forall t,
    range_events span includeEventBody es t
    = Returned (tt, received t (flat_map (event_calls span includeEventBody) es)).
Proof.
  induction es as [|e es IH]; intros t.
  - cbn [range_events flat_map]. now rewrite received_nil.
  - cbn [range_events flat_map]. unfold trace.bind.
    rewrite annotate_event_calls, IH, received_app. reflexivity.
Qed.

(** C6. For every list of events and every span, [AddEventAnnotations]
    makes, for each event in the order of the list, one [Annotate] call
    tagged [message] immediately followed by one [AddAttributes] call, and
    nothing else; no event is skipped, and an event with no recipient
    yields in both calls the attribute [to] with the empty string. *)
Theorem AddEventAnnotations_interleaved (events : list (@Event time_Time dyn))
  (span : option nat) (includeEventBody : bool) (t : trace.Tracer) :
  exists t',
    AddEventAnnotations (Some events) span includeEventBody t = Returned (tt, t') /\
    trace.spans t' = trace.spans t /\
    trace.calls t'
    = trace.calls t ++ flat_map (event_calls span includeEventBody) events /\
    List.length (flat_map (event_calls span includeEventBody) events)
    = (2 * List.length events)%nat /\
    (forall e c,
        In e events -> To e = [] ->
        In c (event_calls span includeEventBody e) ->
        In {| trace.key := "to"; trace.value := trace.StringValue "" |}
           (call_attributes c)).
Proof.
  eexists. split; [apply range_events_calls|]. repeat split.
  - induction events as [|e es IH]; [reflexivity|].
    cbn [flat_map]. rewrite length_app, IH. simpl. lia.
  - intros e c _ Hto Hc.
    assert (Hin : In {| trace.key := "to"; trace.value := trace.StringValue "" |}
                     (event_attributes e)).
    { unfold event_attributes. rewrite Hto. simpl. tauto. }
    destruct Hc as [<- | [<- | []]]; cbn [call_attributes]; [exact Hin|].
    destruct includeEventBody; [apply in_or_app; left|]; exact Hin.
Qed.

(** C7. Without the body, no call of [AddEventAnnotations] carries an
    attribute [data]. With the body, the [AddAttributes] call of every
    event carries the four attributes and then [data], the payload in
    its [%v] form, which is [<nil>] for a nil payload; the [Annotate]
    call, made before, carries the four attributes only. *)
Theorem AddEventAnnotations_body_toggle (events : list (@Event time_Time dyn))
  (span : option nat) (t : trace.Tracer) :
  (exists t' new,
      AddEventAnnotations (Some events) span false t = Returned (tt, t') /\
      trace.calls t' = trace.calls t ++ new /\
      Forall (fun c => has_key "data" (call_attributes c) = false) new) /\
  (exists t',
      AddEventAnnotations (Some events) span true t = Returned (tt, t') /\
      trace.calls t'
      = trace.calls t ++
        flat_map (fun e =>
                    [ trace.Annotate_call span (event_attributes e) "message";
                      trace.AddAttributes_call span
                        (event_attributes e ++ [data_attribute e]) ]) events) /\
  (forall e : @Event time_Time dyn,
      has_key "data" (event_attributes e) = false /\
      has_key "data" (event_attributes e ++ [data_attribute e]) = true /\
      data_attribute e
      = trace.StringAttribute "data" (fmt.Sprintf_v (Data e)) /\
      (Data e = None ->
       data_attribute e = trace.StringAttribute "data" "<nil>")).
Proof.
  split; [|split].
  - do 2 eexists. split; [apply range_events_calls|]. split; [reflexivity|].
    induction events as [|e es IH]; cbn [flat_map]; [constructor|].
    apply Forall_app. split; [|exact IH].
    repeat constructor.
  - eexists. split; [apply range_events_calls|]. reflexivity.
  - intros e. repeat split.
    unfold data_attribute. now intros ->.
Qed.

(** C10. [AddEventAnnotations] dereferences its events pointer without a
    test: with a nil pointer every call panics, and so do
    [TraceSpanFromContext] and [TraceSpanFromRoutingContext] when
    [includeEvent] is true; the nil list is not read as an empty one. *)
Theorem AddEventAnnotations_nil_events :
  (forall span includeEventBody t,
      AddEventAnnotations (@None (list (@Event time_Time dyn))) span includeEventBody t
      = Panicked NilPointerDereference) /\
  (forall c operation includeEventBody t,
      TraceSpanFromContext c (@None (list (@Event time_Time dyn))) operation true includeEventBody t
      = Panicked NilPointerDereference) /\
  (forall operation includeEventBody t,
      TraceSpanFromRoutingContext None (@None (list (@Event time_Time dyn))) operation true
        includeEventBody t
      = Panicked NilPointerDereference) /\
  (forall c operation includeEventBody t,
      exists e,
        TraceSpanFromRoutingContext c (@None (list (@Event time_Time dyn))) operation true
          includeEventBody t
        = Panicked e) /\
  (forall span includeEventBody t,
      AddEventAnnotations (Some (@nil (@Event time_Time dyn))) span includeEventBody t
      = Returned (tt, t)).
Proof.
  repeat split.
  - intros [rc|] operation includeEventBody t; [|eexists; reflexivity].
    unfold TraceSpanFromRoutingContext, trace.bind, trace.lift.
    destruct (negb _).
    + destruct (DeserializeSpanContext _); eexists; reflexivity.
    + eexists; reflexivity.
Qed.

End EventProperties.

(** Two events on a fresh runtime, with the body: the first has no
    recipient and a nil payload. Times and payloads are strings here. *)
Example annotate_two_events :
  let e1 := {| EventName := "created"; To := []; Concurrency := "first";
               CreatedAt := "t1"; State := []; Data := None |} in
  let e2 := {| EventName := "updated"; To := ["a"; "b"]; Concurrency := "";
               CreatedAt := "t2"; State := []; Data := Some "body" |} in
  let t := {| trace.newIdentity := fun _ _ => trace.SpanContext_zero;
              trace.spans := []; trace.calls := [] |} in
  option_map (fun r => trace.calls (snd r))
    (match @AddEventAnnotations string (fun s => s) string (fun s => s)
             (Some [e1; e2]) (Some 0%nat) true t with
     | Returned r => Some r
     | Panicked _ => None
     end)
  = Some
      [ trace.Annotate_call (Some 0%nat)
          [ trace.StringAttribute "eventName" "created";
            trace.StringAttribute "createdAt" "t1";
            trace.StringAttribute "concurrency" "first";
            trace.StringAttribute "to" "" ] "message";
        trace.AddAttributes_call (Some 0%nat)
          [ trace.StringAttribute "eventName" "created";
            trace.StringAttribute "createdAt" "t1";
            trace.StringAttribute "concurrency" "first";
            trace.StringAttribute "to" "";
            trace.StringAttribute "data" "<nil>" ];
        trace.Annotate_call (Some 0%nat)
          [ trace.StringAttribute "eventName" "updated";
            trace.StringAttribute "createdAt" "t2";
            trace.StringAttribute "concurrency" "";
            trace.StringAttribute "to" "a,b" ] "message";
        trace.AddAttributes_call (Some 0%nat)
          [ trace.StringAttribute "eventName" "updated";
            trace.StringAttribute "createdAt" "t2";
            trace.StringAttribute "concurrency" "";
            trace.StringAttribute "to" "a,b";
            trace.StringAttribute "data" "body" ] ].
Proof. reflexivity. Qed.

(** * Further properties of the package *)

(** ** The shape of tokens *)

Lemma Split_length_count (s : string) (sep : ascii) :
  List.length (strings.Split s sep) = S (count_sep sep s).
Proof.
  induction s as [|c s IH]; [reflexivity|].
  cbn [strings.Split count_sep]. destruct (Ascii.eqb c sep).
  - cbn [List.length]. now rewrite IH.
  - pose proof (Split_nonempty s sep) as Hne.
    destruct (strings.Split s sep) as [|field fields]; [congruence|].
    exact IH.
Qed.

(** The decode either panics on a short split or has three fields. *)
Lemma Deserialize_cases (ctx : string) :
  ((List.length (strings.Split ctx ";") < 3)%nat /\
   DeserializeSpanContext ctx
   = Panicked (IndexOutOfRange (List.length (strings.Split ctx ";"))
                               (List.length (strings.Split ctx ";")))) \/
  (exists f0 f1 f2 rest, strings.Split ctx ";" = f0 :: f1 :: f2 :: rest).
Proof.
  unfold DeserializeSpanContext.
  pose proof (Split_nonempty ctx ";") as Hne.
  destruct (strings.Split ctx ";") as [|p0 [|p1 [|p2 rest]]].
  - congruence.
  - left. split; [simpl; lia|].
    cbn [index_slice nth_error obind List.length]. split_pairs. reflexivity.
  - left. split; [simpl; lia|].
    cbn [index_slice nth_error obind List.length]. split_pairs. reflexivity.
  - right. eauto.
Qed.

(** What the decode returns is a full-width identity without tracestate. *)
Lemma Deserialize_output (ctx : string) (y : trace.SpanContext) :
  DeserializeSpanContext ctx = Returned y ->
  full_width y /\ trace.Tracestate y = None.
Proof.
  intros Hy. destruct (Deserialize_cases ctx) as [[_ E] | (f0 & f1 & f2 & rest & E)].
  - congruence.
  - rewrite (Deserialize_fields _ _ _ _ _ E) in Hy. injection Hy as <-.
    unfold full_width. cbn [trace.SpanID trace.TraceID trace.TraceOptions trace.Tracestate].
    rewrite !copy_length.
    pose proof (ParseUint_bound f2) as Hb. rewrite maxUint32_value in Hb.
    repeat split; try reflexivity; change (2 ^ 32 - 1) with 4294967295; lia.
Qed.

(** X3. [DeserializeSpanContext] returns exactly on the tokens that hold
    at least two separators [;]; on the others it panics on the index
    one past the last field. *)
Theorem Deserialize_returns_iff_two_separators (ctx : string) :
  ((exists y, DeserializeSpanContext ctx = Returned y)
   <-> (2 <= count_sep ";" ctx)%nat) /\
  (DeserializeSpanContext ctx
   = Panicked (IndexOutOfRange (S (count_sep ";" ctx)) (S (count_sep ";" ctx)))
   <-> (count_sep ";" ctx < 2)%nat).
Proof.
  pose proof (Split_length_count ctx ";") as Hlen.
  destruct (Deserialize_cases ctx) as [[Hshort E] | (f0 & f1 & f2 & rest & E)].
  - rewrite Hlen in *. split; split.
    + intros [y Hy]. congruence.
    + lia.
    + lia.
    + intros _. exact E.
  - rewrite E in Hlen. simpl in Hlen.
    rewrite (Deserialize_fields _ _ _ _ _ E). split; split.
    + lia.
    + eauto.
    + discriminate.
    + lia.
Qed.

(** X4. Whatever the token, well formed or not, an identity that
    [DeserializeSpanContext] returns has a span id of 8 bytes, a trace id
    of 16 bytes, flags within 32 bits and no tracestate. *)
Theorem Deserialize_output_well_formed (ctx : string) (y : trace.SpanContext) :
  DeserializeSpanContext ctx = Returned y ->
  List.length (trace.SpanID y) = 8%nat /\
  List.length (trace.TraceID y) = 16%nat /\
  0 <= trace.TraceOptions y <= 2 ^ 32 - 1 /\
  trace.Tracestate y = None.
Proof.
  intros Hy. destruct (Deserialize_output ctx y Hy) as [(Hs & Ht & Ho) Hts].
  repeat split; try assumption; apply Ho.
Qed.

Lemma output_well_formed_witness :
  DeserializeSpanContext "xyz;0102;99999999999999999999999;;" 
  = Returned
      {| trace.TraceID := [x01; x02] ++ repeat x00 14;
         trace.SpanID := repeat x00 8;
         trace.TraceOptions := 4294967295;
         trace.Tracestate := None |} /\
  List.length (repeat x00 8) = 8%nat /\
  List.length ([x01; x02] ++ repeat x00 14) = 16%nat /\
  0 <= 4294967295 <= 2 ^ 32 - 1 /\
  @None (list (string * string)) = None.
Proof.
  split; [reflexivity|].
  exact (Deserialize_output_well_formed
           "xyz;0102;99999999999999999999999;;"
           {| trace.TraceID := [x01; x02] ++ repeat x00 14;
              trace.SpanID := repeat x00 8;
              trace.TraceOptions := 4294967295;
              trace.Tracestate := None |} eq_refl).
Defined.

(** X5. Decoding normalises: an identity the decode returned, encoded
    and decoded again, comes back unchanged, whatever token it came
    from. *)
Theorem Deserialize_Serialize_Deserialize (ctx : string) (y : trace.SpanContext) :
  DeserializeSpanContext ctx = Returned y ->
  DeserializeSpanContext (SerializeSpanContext y) = Returned y.
Proof.
  intros Hy. destruct (Deserialize_output ctx y Hy) as [Hfw Hts].
  rewrite (Deserialize_Serialize y Hfw). destruct y. simpl in Hts. now subst.
Qed.

Lemma normalise_witness :
  DeserializeSpanContext
    (SerializeSpanContext
       {| trace.TraceID := [xab] ++ repeat x00 15;
          trace.SpanID := [x01] ++ repeat x00 7;
          trace.TraceOptions := 0;
          trace.Tracestate := None |})
  = Returned
      {| trace.TraceID := [xab] ++ repeat x00 15;
         trace.SpanID := [x01] ++ repeat x00 7;
         trace.TraceOptions := 0;
         trace.Tracestate := None |}.
Proof.
  exact (Deserialize_Serialize_Deserialize "01zz;AB;x;tail" _ eq_refl).
Defined.

(** X2. Encoding is injective on full-width identities: two of them
    with the same token have the same span id, trace id and flags. *)
Theorem Serialize_injective (x y : trace.SpanContext) :
  full_width x -> full_width y ->
  SerializeSpanContext x = SerializeSpanContext y ->
  trace.SpanID x = trace.SpanID y /\
  trace.TraceID x = trace.TraceID y /\
  trace.TraceOptions x = trace.TraceOptions y.
Proof.
  intros Hx Hy E.
  pose proof (Deserialize_Serialize x Hx) as Dx.
  pose proof (Deserialize_Serialize y Hy) as Dy.
  rewrite E, Dy in Dx. injection Dx as -> -> ->. repeat split.
Qed.

Lemma Serialize_injective_witness :
  trace.SpanID trace.SpanContext_zero = trace.SpanID trace.SpanContext_zero /\
  trace.TraceID trace.SpanContext_zero = trace.TraceID trace.SpanContext_zero /\
  trace.TraceOptions trace.SpanContext_zero
  = trace.TraceOptions
      {| trace.TraceID := repeat x00 16; trace.SpanID := repeat x00 8;
         trace.TraceOptions := 0; trace.Tracestate := Some [("k", "v")] |}.
Proof.
  apply (Serialize_injective trace.SpanContext_zero
           {| trace.TraceID := repeat x00 16; trace.SpanID := repeat x00 8;
              trace.TraceOptions := 0; trace.Tracestate := Some [("k", "v")] |});
    [repeat split; simpl; lia | repeat split; simpl; lia | reflexivity].
Defined.

Lemma EncodeToString_length (bs : list byte) :
  String.length (hex.EncodeToString bs) = (2 * List.length bs)%nat.
Proof.
  induction bs as [|v bs IH]; [reflexivity|].
  cbn [hex.EncodeToString String.length List.length]. rewrite IH. lia.
Qed.

Lemma digit_char_is_digit (d : Z) :
  0 <= d < 10 -> is_digit (ascii_of_N (Z.to_N (48 + d))) = true.
Proof.
  intros H.
  assert (C : d = 0 \/ d = 1 \/ d = 2 \/ d = 3 \/ d = 4 \/
              d = 5 \/ d = 6 \/ d = 7 \/ d = 8 \/ d = 9) by lia.
  repeat (destruct C as [-> | C]; [reflexivity|]).
  subst d. reflexivity.
Qed.

Lemma fmtInteger_loop_digits (fuel : nat) :
  forall u buf, 0 <= u -> all_digits buf = true ->
                all_digits (fmt.fmtInteger_loop fuel u buf) = true.
Proof.
  induction fuel as [|fuel IH]; intros u buf Hu Hb; cbn [fmt.fmtInteger_loop].
  - exact Hb.
  - destruct (u >=? 10) eqn:E.
    + apply IH; [apply Z.div_pos; lia|].
      rewrite last_digit. cbn [all_digits].
      rewrite digit_char_is_digit by (apply Z.mod_pos_bound; lia). exact Hb.
    + cbn [all_digits]. rewrite digit_char_is_digit by lia. exact Hb.
Qed.

(** The digits [%d] writes denote the number formatted. *)
Lemma verb_d_decimal (u : Z) :
  0 <= u <= maxUint32 ->
  is_decimal (fmt.verb_d u) = true /\ decimal_value (fmt.verb_d u) = u.
Proof.
  intros Hu.
  assert (Hd : all_digits (fmt.verb_d u) = true)
    by (apply fmtInteger_loop_digits; [lia | reflexivity]).
  pose proof (ParseUint_verb_d u Hu) as Hp.
  destruct (verb_d_cons u) as (c & s & E). rewrite E in *.
  split; [exact Hd|].
  rewrite ParseUint_nonempty, ParseUint_loop_digits in Hp;
    [|exact Hd | rewrite maxUint32_value; lia].
  unfold decimal_value.
  destruct (decimal_from 0 (String c s) <=? maxUint32); congruence.
Qed.

(** X1. The token of a full-width identity has exactly three fields and
    two separators: 16 hexadecimal characters that decode to the span
    id, 32 that decode to the trace id, and a decimal number that
    denotes the flags. *)
Theorem Serialize_shape (x : trace.SpanContext) :
  full_width x ->
  exists f0 f1 f2,
    strings.Split (SerializeSpanContext x) ";" = [f0; f1; f2] /\
    count_sep ";" (SerializeSpanContext x) = 2%nat /\
    String.length f0 = 16%nat /\
    String.length f1 = 32%nat /\
    hex.DecodeString f0 = (trace.SpanID x, None) /\
    hex.DecodeString f1 = (trace.TraceID x, None) /\
    is_decimal f2 = true /\
    decimal_value f2 = trace.TraceOptions x.
Proof.
  intros Hx. pose proof (Split_Serialize x Hx) as E.
  pose proof (Split_length_count (SerializeSpanContext x) ";") as Hc.
  rewrite E in Hc. simpl in Hc.
  destruct Hx as (Hs & Ht & Ho).
  do 3 eexists. split; [exact E|].
  split; [lia|].
  rewrite !EncodeToString_length, Hs, Ht, !DecodeString_EncodeToString.
  destruct (verb_d_decimal _ Ho) as [Hd Hv].
  repeat split; assumption.
Qed.

Lemma Serialize_shape_witness :
  exists f0 f1 f2,
    strings.Split
      (SerializeSpanContext
         {| trace.TraceID := repeat xff 16; trace.SpanID := repeat x0a 8;
            trace.TraceOptions := 4294967295; trace.Tracestate := None |}) ";"
    = [f0; f1; f2] /\
    count_sep ";"
      (SerializeSpanContext
         {| trace.TraceID := repeat xff 16; trace.SpanID := repeat x0a 8;
            trace.TraceOptions := 4294967295; trace.Tracestate := None |}) = 2%nat /\
    String.length f0 = 16%nat /\
    String.length f1 = 32%nat /\
    hex.DecodeString f0 = (repeat x0a 8, None) /\
    hex.DecodeString f1 = (repeat xff 16, None) /\
    is_decimal f2 = true /\
    decimal_value f2 = 4294967295.
Proof.
  apply (Serialize_shape
           {| trace.TraceID := repeat xff 16; trace.SpanID := repeat x0a 8;
              trace.TraceOptions := 4294967295; trace.Tracestate := None |}).
  repeat split; simpl; lia.
Defined.

(** ** Hexadecimal digits in upper case *)

Lemma upper_case_append (a b : string) :
  upper_case (String.append a b)
  = String.append (upper_case a) (upper_case b).
Proof. induction a as [|c a IH]; simpl; [reflexivity | now rewrite IH]. Qed.

Lemma upper_hexdigit (v : byte) :
  hex.fromHexChar (upper_char (hex.hexdigit (N.shiftr (Byte.to_N v) 4)))
  = Some (N.shiftr (Byte.to_N v) 4) /\
  hex.fromHexChar (upper_char (hex.hexdigit (N.land (Byte.to_N v) 15)))
  = Some (N.land (Byte.to_N v) 15) /\
  Ascii.eqb (upper_char (hex.hexdigit (N.shiftr (Byte.to_N v) 4))) ";" = false /\
  Ascii.eqb (upper_char (hex.hexdigit (N.land (Byte.to_N v) 15))) ";" = false.
Proof. destruct v; repeat split. Qed.

Lemma DecodeString_upper_case (bs : list byte) :
  hex.DecodeString (upper_case (hex.EncodeToString bs)) = (bs, None) /\
  free_of ";" (upper_case (hex.EncodeToString bs)) = true.
Proof.
  induction bs as [|v bs [IHd IHf]]; [split; reflexivity|].
  cbn [hex.EncodeToString upper_case hex.DecodeString free_of].
  destruct (upper_hexdigit v) as (-> & -> & -> & ->).
  rewrite IHd, byte_of_nibbles_split. split; [reflexivity | exact IHf].
Qed.

Lemma upper_case_digits (s : string) :
  all_digits s = true -> upper_case s = s.
Proof.
  induction s as [|c s IH]; [reflexivity|].
  cbn [all_digits upper_case]. intros H.
  apply andb_true_iff in H as [Hc Hs]. rewrite (IH Hs). f_equal.
  unfold is_digit in Hc. unfold upper_char.
  apply andb_true_iff in Hc as [H1 H2].
  destruct ((97 <=? N_of_ascii c) && (N_of_ascii c <=? 122))%N eqn:E; [|reflexivity].
  apply andb_true_iff in E as [E1 E2].
  apply N.leb_le in E1. lia.
Qed.

(** X6. The decode reads hexadecimal digits in either case: the token
    of a full-width identity with its letters in upper case decodes to
    the same identity as the token itself. *)
Theorem Deserialize_upper_case (x : trace.SpanContext) :
  full_width x ->
  DeserializeSpanContext (upper_case (SerializeSpanContext x))
  = Returned
      {| trace.TraceID := trace.TraceID x;
         trace.SpanID := trace.SpanID x;
         trace.TraceOptions := trace.TraceOptions x;
         trace.Tracestate := None |}.
Proof.
  intros (Hs & Ht & Ho).
  assert (E : strings.Split (upper_case (SerializeSpanContext x)) ";"
              = [ upper_case (hex.EncodeToString (trace.SpanID x));
                  upper_case (hex.EncodeToString (trace.TraceID x));
                  fmt.verb_d (trace.TraceOptions x) ]).
  { unfold SerializeSpanContext, trace.SpanID_String, trace.TraceID_String,
      fmt.verb_02x.
    rewrite upper_case_append. cbn [upper_case].
    rewrite upper_case_append. cbn [upper_case].
    change (upper_char ";") with ";"%char.
    rewrite Split_field by apply DecodeString_upper_case.
    rewrite Split_field by apply DecodeString_upper_case.
    rewrite (upper_case_digits (fmt.verb_d (trace.TraceOptions x)))
      by (apply fmtInteger_loop_digits; [lia | reflexivity]).
    rewrite Split_free by (apply verb_d_free; lia).
    reflexivity. }
  rewrite (Deserialize_fields _ _ _ _ _ E).
  rewrite !(proj1 (DecodeString_upper_case _)), ParseUint_verb_d by exact Ho.
  cbn [fst]. rewrite !copy_same_length by (rewrite repeat_length; assumption).
  reflexivity.
Qed.

Lemma upper_case_witness :
  upper_case
    (SerializeSpanContext
       {| trace.TraceID := repeat xab 16; trace.SpanID := repeat xcd 8;
          trace.TraceOptions := 1; trace.Tracestate := None |})
  = "CDCDCDCDCDCDCDCD;ABABABABABABABABABABABABABABABAB;1" /\
  DeserializeSpanContext
    (upper_case
       (SerializeSpanContext
          {| trace.TraceID := repeat xab 16; trace.SpanID := repeat xcd 8;
             trace.TraceOptions := 1; trace.Tracestate := None |}))
  = Returned
      {| trace.TraceID := repeat xab 16; trace.SpanID := repeat xcd 8;
         trace.TraceOptions := 1; trace.Tracestate := None |}.
Proof.
  split; [reflexivity|].
  apply (Deserialize_upper_case
           {| trace.TraceID := repeat xab 16; trace.SpanID := repeat xcd 8;
              trace.TraceOptions := 1; trace.Tracestate := None |}).
  repeat split; simpl; lia.
Defined.

(** ** The optional decode *)

(** X16. [DeserializeSpanContextPointer] differs from
    [DeserializeSpanContext] on the empty token only: it returns nil
    exactly for the empty token, returns a pointer to [y] exactly when the
    decode returns [y], and panics exactly when the token is not empty
    and the decode panics. *)
Theorem DeserializeSpanContextPointer_agrees (ctx : string) :
  (DeserializeSpanContextPointer ctx = Returned None <-> ctx = EmptyString) /\
  (forall y, DeserializeSpanContextPointer ctx = Returned (Some y)
             <-> DeserializeSpanContext ctx = Returned y) /\
  (forall e, DeserializeSpanContextPointer ctx = Panicked e
             <-> ctx <> EmptyString /\ DeserializeSpanContext ctx = Panicked e).
Proof.
  destruct ctx as [|c s].
  - repeat split; try reflexivity; try discriminate.
    + intros [H _]. congruence.
  - unfold DeserializeSpanContextPointer. cbn [String.eqb obind].
    destruct (DeserializeSpanContext (String c s)) as [y0 | e0]; cbn [obind].
    + repeat split; try discriminate; try congruence.
      intros [_ H]. discriminate.
    + repeat split; try discriminate; try congruence.
      intros [_ H]. congruence.
Qed.

(** ** Recipients *)

(** X7. The attribute [to] reads back: for a list of recipients that is
    not empty and whose elements hold no comma, splitting the joined
    string on commas gives the list again. *)
Theorem Split_Join_recipients (to : list string) :
  to <> [] ->
  Forall (fun r => free_of "," r = true) to ->
  strings.Split (strings.Join to ",") "," = to.
Proof.
  intros Hne Hfree. induction to as [|r rest IH]; [congruence|].
  inversion Hfree as [|? ? Hr Hrest]; subst.
  destruct rest as [|r' rest].
  - cbn [strings.Join]. now apply Split_free.
  - cbn [strings.Join]. change (String.append "," ?x) with (String "," x).
    rewrite Split_field by exact Hr.
    f_equal. apply IH; [discriminate | exact Hrest].
Qed.

Lemma Split_Join_witness :
  strings.Split (strings.Join ["alice"; ""; "bob"] ",") "," = ["alice"; ""; "bob"].
Proof.
  apply (Split_Join_recipients ["alice"; ""; "bob"]);
    [discriminate | repeat constructor].
Defined.

(** ** Starting spans *)

Lemma token_parent_cases (corID : string) :
  (corID <> EmptyString /\ (count_sep ";" corID < 2)%nat /\
   token_parent corID
   = Panicked (IndexOutOfRange (S (count_sep ";" corID)) (S (count_sep ";" corID)))) \/
  (corID = EmptyString /\ token_parent corID = Returned trace.NoParent) \/
  (corID <> EmptyString /\ (2 <= count_sep ";" corID)%nat /\
   exists y, DeserializeSpanContext corID = Returned y /\
             token_parent corID = Returned (trace.RemoteParent y)).
Proof.
  unfold token_parent. destruct (String.eqb_spec corID "") as [-> | Hne].
  - right. left. split; reflexivity.
  - pose proof (Split_length_count corID ";") as Hlen.
    destruct (Deserialize_cases corID) as [[Hshort E] | (f0 & f1 & f2 & rest & E)].
    + left. rewrite Hlen in *. rewrite E. repeat split; [exact Hne | lia].
    + right. right. rewrite E in Hlen. simpl in Hlen.
      rewrite (Deserialize_fields _ _ _ _ _ E).
      split; [exact Hne|]. split; [lia|]. eauto.
Qed.

(** [TraceSpanFromCorrelationId] in terms of the parent the token
    selects. *)
Lemma TraceSpanFromCorrelationId_eq
  (corID operation actionMethod targetID from verbMethod : string)
  (t : trace.Tracer) :
  TraceSpanFromCorrelationId corID operation actionMethod targetID from verbMethod t
  = match token_parent corID with
    | Panicked e => Panicked e
    | Returned p =>
        Returned
          ((trace_NewContext context_Background (Some (List.length (trace.spans t))),
            Some (List.length (trace.spans t))),
           after_action_call t operation p
             (action_attributes actionMethod targetID from verbMethod))
    end.
Proof.
  unfold token_parent. destruct (String.eqb corID "") eqn:E.
  - apply String.eqb_eq in E. subst corID. apply TraceSpanFromCorrelationId_root.
  - destruct (DeserializeSpanContext corID) as [y | e] eqn:D.
    + now apply TraceSpanFromCorrelationId_remote.
    + unfold TraceSpanFromCorrelationId, trace.bind, trace.lift.
      rewrite E, D. reflexivity.
Qed.

(** X8. [TraceSpanFromCorrelationId] panics exactly on the tokens that
    are not empty and hold fewer than two separators. On every other
    token it returns the handle of one new span, appended to the spans of
    the runtime, whose parent is none for the empty token and the
    decoded identity otherwise; the spans and calls the runtime already
    had are kept, and exactly two calls are added, [Annotate] tagged
    [actionCall] and [AddAttributes], both on the new span with the four
    attributes [actionMethod], [targetID], [from], [verbMethod]. *)
Theorem TraceSpanFromCorrelationId_total
  (corID operation actionMethod targetID from verbMethod : string)
  (t : trace.Tracer) :
  (corID <> EmptyString /\ (count_sep ";" corID < 2)%nat <->
   exists e,
     TraceSpanFromCorrelationId corID operation actionMethod targetID from
       verbMethod t = Panicked e) /\
  (corID = EmptyString \/ (2 <= count_sep ";" corID)%nat ->
   exists n d t',
     TraceSpanFromCorrelationId corID operation actionMethod targetID from
       verbMethod t
     = Returned ((trace_NewContext context_Background (Some n), Some n), t') /\
     n = List.length (trace.spans t) /\
     trace.spans t' = trace.spans t ++ [d] /\
     trace.Name d = operation /\
     (corID = EmptyString -> trace.ParentOf d = trace.NoParent) /\
     (corID <> EmptyString ->
      exists y, DeserializeSpanContext corID = Returned y /\
                trace.ParentOf d = trace.RemoteParent y) /\
     trace.calls t'
     = trace.calls t ++
       [ trace.Annotate_call (Some n)
           [ trace.StringAttribute "actionMethod" actionMethod;
             trace.StringAttribute "targetID" targetID;
             trace.StringAttribute "from" from;
             trace.StringAttribute "verbMethod" verbMethod ] "actionCall";
         trace.AddAttributes_call (Some n)
           [ trace.StringAttribute "actionMethod" actionMethod;
             trace.StringAttribute "targetID" targetID;
             trace.StringAttribute "from" from;
             trace.StringAttribute "verbMethod" verbMethod ] ]).
Proof.
  rewrite TraceSpanFromCorrelationId_eq.
  destruct (token_parent_cases corID)
    as [(Hne & Hc & ->) | [(-> & ->) | (Hne & Hc & y & Hy & ->)]].
  - split; [split; eauto|]. intros [-> | H]; [congruence | lia].
  - split.
    + split; [intros [H _]; congruence | intros [e He]; discriminate].
    + intros _. do 3 eexists. repeat split. intros H. congruence.
  - split.
    + split; [intros [_ H]; lia | intros [e He]; discriminate].
    + intros _. do 3 eexists. repeat split; [congruence | eauto].
Qed.

Section StartingSpans.

Context {time_Time : Type} {Time_Stringer : fmt.Stringer time_Time}.
Context {dyn : Type} {dyn_Formatter : fmt.Formatter dyn}.

Lemma AddEventAnnotations_eq (events : option (list (@Event time_Time dyn)))
  (includeEvent includeEventBody : bool) (span : option nat) (t : trace.Tracer) :
  (if includeEvent then AddEventAnnotations events span includeEventBody
   else trace.ret tt) t
  = match events_to_annotate events includeEvent with
    | None => Panicked NilPointerDereference
    | Some es =>
        Returned (tt, received t (flat_map (event_calls span includeEventBody) es))
    end.
Proof.
  unfold events_to_annotate. destruct includeEvent.
  - destruct events as [es|]; [apply range_events_calls | reflexivity].
  - cbn [flat_map]. now rewrite received_nil.
Qed.

(** The rest of both entry points once the span [n] is started. *)
Lemma annotate_and_snapshot (events : option (list (@Event time_Time dyn)))
  (includeEvent includeEventBody : bool) (t : trace.Tracer)
  (operation : string) (p : trace.Parent) (es : list (@Event time_Time dyn)) :
  events_to_annotate events includeEvent = Some es ->
  trace.SpanContext_of (Some (List.length (trace.spans t)))
    (received (started t operation p)
       (flat_map (event_calls (Some (List.length (trace.spans t))) includeEventBody) es))
  = Returned
      (trace.newIdentity t (List.length (trace.spans t)) p,
       received (started t operation p)
         (flat_map (event_calls (Some (List.length (trace.spans t))) includeEventBody) es)).
Proof.
  intros _. unfold trace.SpanContext_of, received, started.
  cbn [trace.spans]. now rewrite nth_error_snoc.
Qed.

Lemma StartSpan_eq (c : context_Context) (operation : string) (t : trace.Tracer) :
  trace.StartSpan c operation t
  = Returned ((trace_NewContext c (Some (List.length (trace.spans t))),
               Some (List.length (trace.spans t))),
              started t operation (local_parent t c)).
Proof.
  unfold trace.StartSpan, trace.start, started, local_parent, trace.FromContext.
  destruct c as [|parent [i|]]; reflexivity.
Qed.

(** [TraceSpanFromContext] in closed form. *)
Lemma TraceSpanFromContext_eq (c : context_Context)
  (events : option (list (@Event time_Time dyn))) (operation : string)
  (includeEvent includeEventBody : bool) (t : trace.Tracer) :
  TraceSpanFromContext c events operation includeEvent includeEventBody t
  = match events_to_annotate events includeEvent with
    | None => Panicked NilPointerDereference
    | Some es =>
        let n := List.length (trace.spans t) in
        let p := local_parent t c in
        Returned
          ((trace_NewContext c (Some n), Some n, Some (trace.newIdentity t n p)),
           received (started t operation p)
             (flat_map (event_calls (Some n) includeEventBody) es))
    end.
Proof.
  unfold TraceSpanFromContext, trace.bind. rewrite StartSpan_eq.
  rewrite AddEventAnnotations_eq.
  destruct (events_to_annotate events includeEvent) as [es|] eqn:E; [|reflexivity].
  cbn zeta.
  change (trace.spans (started t operation (local_parent t c)))
    with (trace.spans t ++
          [{| trace.Name := operation; trace.ParentOf := local_parent t c;
              trace.spanContext :=
                trace.newIdentity t (List.length (trace.spans t)) (local_parent t c) |}]).
  rewrite (annotate_and_snapshot events includeEvent includeEventBody t operation
             (local_parent t c) es E).
  reflexivity.
Qed.

End StartingSpans.

Section EntryPoints.

Context {time_Time : Type} {Time_Stringer : fmt.Stringer time_Time}.
Context {dyn : Type} {dyn_Formatter : fmt.Formatter dyn}.

(** [TraceSpanFromRoutingContext] in closed form. *)
Lemma TraceSpanFromRoutingContext_eq (c : option routing_Context)
  (events : option (list (@Event time_Time dyn))) (operation : string)
  (includeEvent includeEventBody : bool) (t : trace.Tracer) :
  TraceSpanFromRoutingContext c events operation includeEvent includeEventBody t
  = match token_parent (correlation_header c) with
    | Panicked e => Panicked e
    | Returned p =>
        match events_to_annotate events includeEvent with
        | None => Panicked NilPointerDereference
        | Some es =>
            let n := List.length (trace.spans t) in
            Returned
              ((trace_NewContext context_Background (Some n), Some n,
                Some (trace.newIdentity t n p)),
               received (started t operation p)
                 (flat_map (event_calls (Some n) includeEventBody) es))
        end
    end.
Proof.
  assert (Hstart :
    forall p,
      trace.bind (trace.start context_Background operation p)
        (fun x =>
           match x with
           | (ctx, span) =>
               trace.bind
                 (if includeEvent
                  then AddEventAnnotations events span includeEventBody
                  else trace.ret tt)
                 (fun _ =>
                    match span with
                    | Some _ =>
                        trace.bind (trace.SpanContext_of span)
                          (fun context => trace.ret (ctx, span, Some context))
                    | None => trace.ret (ctx, span, None)
                    end)
           end) t
      = match events_to_annotate events includeEvent with
        | None => Panicked NilPointerDereference
        | Some es =>
            Returned
              ((trace_NewContext context_Background (Some (List.length (trace.spans t))),
                Some (List.length (trace.spans t)),
                Some (trace.newIdentity t (List.length (trace.spans t)) p)),
               received (started t operation p)
                 (flat_map (event_calls (Some (List.length (trace.spans t)))
                              includeEventBody) es))
        end).
  { intros p. unfold trace.bind at 1. unfold trace.start.
    fold (started t operation p). unfold trace.bind at 1.
    rewrite AddEventAnnotations_eq.
    destruct (events_to_annotate events includeEvent) as [es|] eqn:E; [|reflexivity].
    unfold trace.bind.
    change (trace.spans (started t operation p))
      with (trace.spans t ++
            [{| trace.Name := operation; trace.ParentOf := p;
                trace.spanContext :=
                  trace.newIdentity t (List.length (trace.spans t)) p |}]).
    rewrite (annotate_and_snapshot events includeEvent includeEventBody t
               operation p es E).
    reflexivity. }
  unfold TraceSpanFromRoutingContext, correlation_header, token_parent.
  destruct c as [rc|].
  - destruct (String.eqb (Request_Header_Peek rc CorrelationID) "") eqn:Eh;
      cbn [negb].
    + apply (Hstart trace.NoParent).
    + destruct (DeserializeSpanContext (Request_Header_Peek rc CorrelationID))
        as [y | e] eqn:D.
      * exact (Hstart (trace.RemoteParent y)).
      * reflexivity.
  - cbn [String.eqb]. apply (Hstart trace.NoParent).
Qed.

(** X9. [TraceSpanFromContext] on events it may read (a list that is
    not nil, or any list when [includeEvent] is false) returns the handle
    of one new span and a snapshot that is not nil and is the identity
    the runtime holds for that span; the span is a root span when the
    context is the background; the spans and calls the runtime had are
    kept, and the calls added are those of the events annotated, on the
    new span. *)
Theorem TraceSpanFromContext_snapshot (c : context_Context)
  (events : option (list (@Event time_Time dyn))) (operation : string)
  (includeEvent includeEventBody : bool) (t : trace.Tracer)
  (es : list (@Event time_Time dyn)) :
  events_to_annotate events includeEvent = Some es ->
  exists n d sc t',
    TraceSpanFromContext c events operation includeEvent includeEventBody t
    = Returned ((trace_NewContext c (Some n), Some n, Some sc), t') /\
    n = List.length (trace.spans t) /\
    trace.spans t' = trace.spans t ++ [d] /\
    nth_error (trace.spans t') n = Some d /\
    trace.spanContext d = sc /\
    trace.Name d = operation /\
    trace.ParentOf d = local_parent t c /\
    (c = context_Background -> trace.ParentOf d = trace.NoParent) /\
    trace.calls t'
    = trace.calls t ++ flat_map (event_calls (Some n) includeEventBody) es.
Proof.
  intros E. rewrite TraceSpanFromContext_eq, E. cbn zeta.
  do 4 eexists. split; [reflexivity|].
  cbn [received started trace.spans trace.calls trace.spanContext trace.Name
       trace.ParentOf].
  repeat split.
  - apply nth_error_snoc.
  - now intros ->.
Qed.

(** X10. Spans nest through the context: a second call of
    [TraceSpanFromContext] on the context the first one returned starts a
    span whose parent is local and is the snapshot of the first span; the
    spans of the runtime are only appended to. *)
Theorem TraceSpanFromContext_nests (c ctx1 : context_Context)
  (events1 events2 : option (list (@Event time_Time dyn)))
  (operation1 operation2 : string)
  (includeEvent1 includeEventBody1 includeEvent2 includeEventBody2 : bool)
  (t t1 : trace.Tracer) (span1 : option nat) (sc1 : trace.SpanContext)
  (es2 : list (@Event time_Time dyn)) :
  TraceSpanFromContext c events1 operation1 includeEvent1 includeEventBody1 t
  = Returned ((ctx1, span1, Some sc1), t1) ->
  events_to_annotate events2 includeEvent2 = Some es2 ->
  exists n2 d2 sc2 t2,
    TraceSpanFromContext ctx1 events2 operation2 includeEvent2 includeEventBody2 t1
    = Returned ((trace_NewContext ctx1 (Some n2), Some n2, Some sc2), t2) /\
    nth_error (trace.spans t2) n2 = Some d2 /\
    trace.ParentOf d2 = trace.LocalParent sc1 /\
    trace.spans t2 = trace.spans t1 ++ [d2].
Proof.
  intros H1 E2. rewrite TraceSpanFromContext_eq in H1.
  destruct (events_to_annotate events1 includeEvent1) as [es1|]; [|discriminate].
  cbn zeta in H1. injection H1 as <- <- <- <-.
  rewrite TraceSpanFromContext_eq, E2. cbn zeta.
  do 4 eexists. split; [reflexivity|].
  unfold received, started, local_parent.
  cbn [trace.spans trace.calls trace.newIdentity].
  split; [apply nth_error_snoc|].
  cbn [trace.ParentOf]. rewrite nth_error_snoc. split; reflexivity.
Qed.

(** X11. Without a correlation token, [TraceSpanFromRoutingContext] is
    [TraceSpanFromContext] on the background context: for a nil request
    and for a request whose header [correlation-id] is empty, the two
    return the same result and leave the runtime in the same state, or
    panic alike. *)
Theorem TraceSpanFromRoutingContext_without_token (c : option routing_Context)
  (events : option (list (@Event time_Time dyn))) (operation : string)
  (includeEvent includeEventBody : bool) (t : trace.Tracer) :
  correlation_header c = EmptyString ->
  TraceSpanFromRoutingContext c events operation includeEvent includeEventBody t
  = TraceSpanFromContext context_Background events operation includeEvent
      includeEventBody t.
Proof.
  intros H. rewrite TraceSpanFromRoutingContext_eq, TraceSpanFromContext_eq, H.
  reflexivity.
Qed.

(** X12. A request whose header [correlation-id] is the token of a
    full-width identity [I] continues the trace of [I]: on events it may
    read, [TraceSpanFromRoutingContext] returns a new span whose remote
    parent has the span id, trace id and flags of [I], with a snapshot
    that is not nil and is the identity the runtime holds for the new
    span. *)
Theorem TraceSpanFromRoutingContext_continues (rc : routing_Context)
  (I : trace.SpanContext) (events : option (list (@Event time_Time dyn)))
  (operation : string) (includeEvent includeEventBody : bool)
  (t : trace.Tracer) (es : list (@Event time_Time dyn)) :
  full_width I ->
  Request_Header_Peek rc CorrelationID = SerializeSpanContext I ->
  events_to_annotate events includeEvent = Some es ->
  exists n d p sc t',
    TraceSpanFromRoutingContext (Some rc) events operation includeEvent
      includeEventBody t
    = Returned ((trace_NewContext context_Background (Some n), Some n, Some sc), t') /\
    nth_error (trace.spans t') n = Some d /\
    trace.spanContext d = sc /\
    trace.ParentOf d = trace.RemoteParent p /\
    trace.SpanID p = trace.SpanID I /\
    trace.TraceID p = trace.TraceID I /\
    trace.TraceOptions p = trace.TraceOptions I /\
    trace.calls t'
    = trace.calls t ++ flat_map (event_calls (Some n) includeEventBody) es.
Proof.
  intros HI Hh E. rewrite TraceSpanFromRoutingContext_eq.
  unfold correlation_header, token_parent.
  rewrite Hh, Serialize_nonempty, (Deserialize_Serialize I HI), E. cbn zeta.
  do 5 eexists. split; [reflexivity|].
  cbn [received started trace.spans trace.calls].
  split; [apply nth_error_snoc|]. repeat split.
Qed.

(** X17. [TraceSpanFromRoutingContext] panics exactly in two cases: the
    correlation token is not empty and holds fewer than two separators,
    or the events are to be annotated and the list is nil. Whenever it
    returns, neither the span nor the snapshot is nil. *)
Theorem TraceSpanFromRoutingContext_panics_iff (c : option routing_Context)
  (events : option (list (@Event time_Time dyn))) (operation : string)
  (includeEvent includeEventBody : bool) (t : trace.Tracer) :
  ((exists e,
       TraceSpanFromRoutingContext c events operation includeEvent
         includeEventBody t = Panicked e)
   <-> (correlation_header c <> EmptyString /\
        (count_sep ";" (correlation_header c) < 2)%nat) \/
       (includeEvent = true /\ events = None)) /\
  (forall r t',
      TraceSpanFromRoutingContext c events operation includeEvent
        includeEventBody t = Returned (r, t') ->
      exists ctx n sc, r = (ctx, Some n, Some sc)).
Proof.
  rewrite TraceSpanFromRoutingContext_eq.
  assert (Hev : events_to_annotate events includeEvent = None
                <-> includeEvent = true /\ events = None).
  { unfold events_to_annotate. destruct includeEvent, events; split;
      try discriminate; try tauto; intros [? ?]; discriminate. }
  destruct (token_parent_cases (correlation_header c))
    as [(Hne & Hc & ->) | [(E & ->) | (Hne & Hc & y & Hy & ->)]].
  - split; [split; eauto | discriminate].
  - destruct (events_to_annotate events includeEvent) as [es|]; split.
    + split; [intros [e He]; discriminate|].
      intros [[H _] | H]; [congruence | apply Hev in H; discriminate].
    + intros r t' [= <- <-]. eauto.
    + split; [intros _; right; now apply Hev | eauto].
    + discriminate.
  - destruct (events_to_annotate events includeEvent) as [es|]; split.
    + split; [intros [e He]; discriminate|].
      intros [[_ H] | H]; [lia | apply Hev in H; discriminate].
    + intros r t' [= <- <-]. eauto.
    + split; [intros _; right; now apply Hev | eauto].
    + discriminate.
Qed.

(** ** Annotating events *)

(** X13. Annotating a list of events in two parts, one call after the
    other on the same span, is annotating the whole list at once. *)
Theorem AddEventAnnotations_app (es1 es2 : list (@Event time_Time dyn))
  (span : option nat) (includeEventBody : bool) (t : trace.Tracer) :
  AddEventAnnotations (Some (es1 ++ es2)) span includeEventBody t
  = trace.bind (AddEventAnnotations (Some es1) span includeEventBody)
      (fun _ => AddEventAnnotations (Some es2) span includeEventBody) t.
Proof.
  unfold AddEventAnnotations, trace.bind.
  rewrite !range_events_calls, flat_map_app, received_app. reflexivity.
Qed.

Lemma event_calls_view (span : option nat) (includeEventBody : bool)
  (e1 e2 : @Event time_Time dyn) :
  annotation_view e1 = annotation_view e2 ->
  (includeEventBody = true -> Data e1 = Data e2) ->
  event_calls span includeEventBody e1 = event_calls span includeEventBody e2.
Proof.
  unfold annotation_view. intros [= Hn Ht Hc Ha] Hd.
  unfold event_calls, event_attributes, data_attribute.
  rewrite Hn, Ht, Hc, Ha.
  destruct includeEventBody; [rewrite (Hd eq_refl)|]; reflexivity.
Qed.

(** X14. Annotation shows nothing of an event but its name, recipients,
    concurrency tag and creation time, and its payload when the body is
    included: two lists of events that agree on these make
    [AddEventAnnotations] leave the runtime in the same state. The
    [State] of an event is never handed to the runtime, and without the
    body neither is its [Data]. *)
Theorem AddEventAnnotations_hides_body (es1 es2 : list (@Event time_Time dyn))
  (span : option nat) (includeEventBody : bool) (t : trace.Tracer) :
  map annotation_view es1 = map annotation_view es2 ->
  (includeEventBody = true -> map Data es1 = map Data es2) ->
  AddEventAnnotations (Some es1) span includeEventBody t
  = AddEventAnnotations (Some es2) span includeEventBody t.
Proof.
  intros Hv Hd. unfold AddEventAnnotations. rewrite !range_events_calls.
  do 2 f_equal. f_equal.
  revert es2 Hv Hd. induction es1 as [|e1 es1 IH]; intros [|e2 es2] Hv Hd;
    try discriminate; [reflexivity|].
  cbn [map] in Hv.
  assert (Hv1 : annotation_view e1 = annotation_view e2) by congruence.
  assert (Hv2 : map annotation_view es1 = map annotation_view es2) by congruence.
  cbn [flat_map]. f_equal.
  - apply event_calls_view; [exact Hv1|].
    intros Hb. specialize (Hd Hb). cbn [map] in Hd. now injection Hd.
  - apply IH; [exact Hv2|].
    intros Hb. specialize (Hd Hb). cbn [map] in Hd. now injection Hd.
Qed.

End EntryPoints.

(** ** The span status *)

(** X15. [SetSpanStatus] never panics and never starts or changes a
    span. On a nil span it makes no call: the runtime is left as it was.
    On a span that is not nil it makes exactly one call, [SetStatus] on
    that span with the code and the message; after two calls in a row
    the last call the runtime received carries the second status. *)
Theorem SetSpanStatus_calls (span : option nat) (code1 code2 : Z)
  (message1 message2 : string) (t : trace.Tracer) :
  exists t1 t2,
    SetSpanStatus span code1 message1 t = Returned (tt, t1) /\
    SetSpanStatus span code2 message2 t1 = Returned (tt, t2) /\
    trace.spans t1 = trace.spans t /\
    trace.spans t2 = trace.spans t /\
    (span = None -> t1 = t /\ t2 = t) /\
    (span <> None ->
     trace.calls t1
     = trace.calls t ++
       [trace.SetStatus_call span {| trace.Code := code1; trace.Message := message1 |}] /\
     trace.calls t2
     = trace.calls t1 ++
       [trace.SetStatus_call span {| trace.Code := code2; trace.Message := message2 |}] /\
     last (trace.calls t2) (trace.SetStatus_call None {| trace.Code := 0; trace.Message := "" |})
     = trace.SetStatus_call span {| trace.Code := code2; trace.Message := message2 |}).
Proof.
  destruct span as [n|].
  - do 2 eexists. split; [reflexivity|]. split; [reflexivity|].
    cbn [trace.spans trace.calls]. repeat split; try discriminate.
    apply last_last.
  - exists t, t. repeat split; congruence.
Qed.

(** ** Runs of the entry points

    Times and payloads are strings in these runs; the runtime is fresh
    and gives every span the zero identity. *)

Lemma snapshot_witness :
  exists sc t',
    @TraceSpanFromContext string (fun s => s) string (fun s => s) context_Background None "op" false false
      {| trace.newIdentity := fun _ _ => trace.SpanContext_zero;
         trace.spans := []; trace.calls := [] |}
    = Returned ((trace_NewContext context_Background (Some 0%nat), Some 0%nat,
                 Some sc), t') /\
    trace.calls t' = [].
Proof.
  destruct (@TraceSpanFromContext_snapshot string (fun s => s) string (fun s => s)
              context_Background None "op" false false
              {| trace.newIdentity := fun _ _ => trace.SpanContext_zero;
                 trace.spans := []; trace.calls := [] |} [] eq_refl)
    as (n & d & sc & t' & H & Hn & _ & _ & _ & _ & _ & _ & Hc).
  simpl in Hn. subst n. exists sc, t'. split; [exact H | exact Hc].
Defined.

Lemma nests_witness :
  exists n2 d2 sc2 t2,
    @TraceSpanFromContext string (fun s => s) string (fun s => s)
      (trace_NewContext context_Background (Some 0%nat)) None "inner" false false
      {| trace.newIdentity := fun _ _ => trace.SpanContext_zero;
         trace.spans := [{| trace.Name := "outer"; trace.ParentOf := trace.NoParent;
                            trace.spanContext := trace.SpanContext_zero |}];
         trace.calls := [] |}
    = Returned ((trace_NewContext (trace_NewContext context_Background (Some 0%nat))
                   (Some n2), Some n2, Some sc2), t2) /\
    nth_error (trace.spans t2) n2 = Some d2 /\
    trace.ParentOf d2 = trace.LocalParent trace.SpanContext_zero.
Proof.
  destruct (@TraceSpanFromContext_nests string (fun s => s) string (fun s => s)
              context_Background
              (trace_NewContext context_Background (Some 0%nat))
              None None "outer" "inner" false false false false
              {| trace.newIdentity := fun _ _ => trace.SpanContext_zero;
                 trace.spans := []; trace.calls := [] |}
              {| trace.newIdentity := fun _ _ => trace.SpanContext_zero;
                 trace.spans := [{| trace.Name := "outer";
                                    trace.ParentOf := trace.NoParent;
                                    trace.spanContext := trace.SpanContext_zero |}];
                 trace.calls := [] |}
              (Some 0%nat) trace.SpanContext_zero [] eq_refl eq_refl)
    as (n2 & d2 & sc2 & t2 & H & Hn & Hp & _).
  exists n2, d2, sc2, t2. repeat split; assumption.
Defined.

Lemma without_token_witness :
  @TraceSpanFromRoutingContext string (fun s => s) string (fun s => s)
    (Some {| Request_Header_Peek := fun _ => "" |}) (Some []) "op" true true
    {| trace.newIdentity := fun _ _ => trace.SpanContext_zero;
       trace.spans := []; trace.calls := [] |}
  = @TraceSpanFromContext string (fun s => s) string (fun s => s)
      context_Background (Some []) "op" true true
      {| trace.newIdentity := fun _ _ => trace.SpanContext_zero;
         trace.spans := []; trace.calls := [] |}.
Proof.
  exact (@TraceSpanFromRoutingContext_without_token
           string (fun s => s) string (fun s => s)
           (Some {| Request_Header_Peek := fun _ => "" |}) (Some []) "op" true true
           {| trace.newIdentity := fun _ _ => trace.SpanContext_zero;
              trace.spans := []; trace.calls := [] |} eq_refl).
Defined.

Lemma continues_witness :
  exists n d p sc t',
    @TraceSpanFromRoutingContext string (fun s => s) string (fun s => s)
      (Some {| Request_Header_Peek :=
                 fun _ => "0123456789abcdef;00112233445566778899aabbccddeeff;1" |})
      None "op" false false
      {| trace.newIdentity := fun _ _ => trace.SpanContext_zero;
         trace.spans := []; trace.calls := [] |}
    = Returned ((trace_NewContext context_Background (Some n), Some n, Some sc), t') /\
    nth_error (trace.spans t') n = Some d /\
    trace.ParentOf d = trace.RemoteParent p /\
    trace.SpanID p = [x01; x23; x45; x67; x89; xab; xcd; xef] /\
    trace.TraceID p = [x00; x11; x22; x33; x44; x55; x66; x77;
                       x88; x99; xaa; xbb; xcc; xdd; xee; xff] /\
    trace.TraceOptions p = 1.
Proof.
  destruct (@TraceSpanFromRoutingContext_continues
              string (fun s => s) string (fun s => s)
              {| Request_Header_Peek :=
                   fun _ => "0123456789abcdef;00112233445566778899aabbccddeeff;1" |}
              {| trace.TraceID := [x00; x11; x22; x33; x44; x55; x66; x77;
                                   x88; x99; xaa; xbb; xcc; xdd; xee; xff];
                 trace.SpanID := [x01; x23; x45; x67; x89; xab; xcd; xef];
                 trace.TraceOptions := 1;
                 trace.Tracestate := None |}
              None "op" false false
              {| trace.newIdentity := fun _ _ => trace.SpanContext_zero;
                 trace.spans := []; trace.calls := [] |} []
              ltac:(repeat split; simpl; lia) eq_refl eq_refl)
    as (n & d & p & sc & t' & H & Hn & _ & Hp & Hs & Ht & Ho & _).
  exists n, d, p, sc, t'. repeat split; assumption.
Defined.

Lemma hides_body_witness :
  @AddEventAnnotations string (fun s => s) string (fun s => s)
    (Some [ {| EventName := "created"; To := ["a"]; Concurrency := "first";
               CreatedAt := "t1";
               State := [{| Key := "k"; Value := Some "secret" |}];
               Data := Some "secret" |} ])
    (Some 0%nat) false
    {| trace.newIdentity := fun _ _ => trace.SpanContext_zero;
       trace.spans := []; trace.calls := [] |}
  = @AddEventAnnotations string (fun s => s) string (fun s => s)
      (Some [ {| EventName := "created"; To := ["a"]; Concurrency := "first";
                 CreatedAt := "t1"; State := []; Data := None |} ])
      (Some 0%nat) false
      {| trace.newIdentity := fun _ _ => trace.SpanContext_zero;
         trace.spans := []; trace.calls := [] |}.
Proof.
  apply (@AddEventAnnotations_hides_body string (fun s => s) string (fun s => s));
    [reflexivity | discriminate].
Defined.

(** ** Fields after the third *)

Lemma Split_append_separator (a b : string) (sep : ascii) :
  strings.Split (String.append a (String sep b)) sep
  = strings.Split a sep ++ strings.Split b sep.
Proof.
  induction a as [|c a IH].
  - cbn [String.append strings.Split]. now rewrite Ascii.eqb_refl.
  - cbn [String.append strings.Split]. rewrite IH.
    destruct (Ascii.eqb c sep); [reflexivity|].
    pose proof (Split_nonempty a sep) as Hne.
    destruct (strings.Split a sep) as [|field fields]; [congruence | reflexivity].
Qed.

(** X18. The decode reads the first three fields only: a token that
    holds at least two separators decodes to the same identity when a
    separator and anything at all are added at its end. *)
Theorem Deserialize_ignores_more_fields (ctx more : string) :
  (2 <= count_sep ";" ctx)%nat ->
  DeserializeSpanContext (String.append ctx (String ";" more))
  = DeserializeSpanContext ctx.
Proof.
  intros Hc. pose proof (Split_length_count ctx ";") as Hlen.
  destruct (Deserialize_cases ctx) as [[Hshort _] | (f0 & f1 & f2 & rest & E)];
    [lia|].
  rewrite (Deserialize_fields _ _ _ _ _ E).
  apply (Deserialize_fields _ f0 f1 f2 (rest ++ strings.Split more ";")).
  rewrite Split_append_separator, E. reflexivity.
Qed.

Lemma ignores_more_fields_witness :
  DeserializeSpanContext
    (String.append "0123456789abcdef;00112233445566778899aabbccddeeff;1"
       (String ";" "anything;at;all"))
  = DeserializeSpanContext "0123456789abcdef;00112233445566778899aabbccddeeff;1".
Proof.
  apply (Deserialize_ignores_more_fields
           "0123456789abcdef;00112233445566778899aabbccddeeff;1" "anything;at;all").
  vm_compute. lia.
Defined.
